(** * Writer-Reviewer workflow with human approval: a shallow embedding

    The development follows [human-in-the-loop.py].  The three message
    handlers ([DraftCapture.capture_draft],
    [ReviewCoordinator.handle_reviewer_response] and
    [ReviewCoordinator.handle_human_decision]) are written in a small
    state-and-exception monad over the [WorkflowContext] they receive, and
    the driving loop of [main] is a function over an abstract workflow
    engine, the console input and a log of the console and engine actions.

    Conventions.
    - A Python [str] is a [string]: the bytes of its UTF-8 text.  [strip]
      removes every character of [str.isspace], the ones outside ASCII by
      their encodings.  [lower] maps the ASCII capitals; [str.lower] also
      maps letters outside ASCII, none of them to a letter of "approve"
      (the only ones with an ASCII image are U+212A, to k, and U+0130, to i
      and U+0307), so the comparison with "approve" is decided alike.
    - A Python [int] is a [Z].
    - The state behind [ctx.get_state] and [ctx.set_state] is a [dict]
      with string keys, here a [gmap string PyVal]; a context that was never
      written holds [None].  The framework keeps that state by executor: a
      handler of [DraftCapture] and a handler of [ReviewCoordinator] each
      read and write the state of their own executor. *)

From Stdlib Require Import ZArith String Ascii List Bool Lia.
From stdpp Require Import base option list strings pretty gmap fin_maps.

Open Scope string_scope.
Open Scope list_scope.
Open Scope Z_scope.

(** ** Python strings *)

Module PyStr.

Definition nl : string := String "010"%char EmptyString.

Definition code (c : ascii) : Z := Z.of_N (N_of_ascii c).

(** The whitespace of [str.isspace] and [str.strip] that is one byte long:
    tab, line feed, vertical tab, form feed, carriage return, the four
    separators 0x1c-0x1f and the space. *)
Definition isspace_ascii (c : ascii) : bool :=
  let n := code c in
  ((9 <=? n) && (n <=? 13)) || ((28 <=? n) && (n <=? 31)) || (n =? 32).

(** The whitespace that is two bytes long in UTF-8: U+0085 (C2 85) and
    U+00A0 (C2 A0). *)
Definition isspace_2 (b1 b2 : ascii) : bool :=
  (code b1 =? 194) && ((code b2 =? 133) || (code b2 =? 160)).

(** The whitespace that is three bytes long in UTF-8: U+1680 (E1 9A 80),
    U+2000-U+200A (E2 80 80-8A), U+2028, U+2029, U+202F (E2 80 A8, A9, AF),
    U+205F (E2 81 9F) and U+3000 (E3 80 80). *)
Definition isspace_3 (b1 b2 b3 : ascii) : bool :=
  ((code b1 =? 225) && (code b2 =? 154) && (code b3 =? 128))
  || ((code b1 =? 226) && (code b2 =? 128)
      && (((128 <=? code b3) && (code b3 <=? 138))
          || (code b3 =? 168) || (code b3 =? 169) || (code b3 =? 175)))
  || ((code b1 =? 226) && (code b2 =? 129) && (code b3 =? 159))
  || ((code b1 =? 227) && (code b2 =? 128) && (code b3 =? 128)).

(** Whitespace characters taken off the front of [s]; with [backwards] the
    bytes of [s] are those of a text read from its end, so the bytes of a
    character come last byte first. *)
Fixpoint strip_left (backwards : bool) (s : string) : string :=
  match s with
  | EmptyString => EmptyString
  | String c1 s1 =>
      if isspace_ascii c1 then strip_left backwards s1
      else
        match s1 with
        | EmptyString => s
        | String c2 s2 =>
            if (if backwards then isspace_2 c2 c1 else isspace_2 c1 c2)
            then strip_left backwards s2
            else
              match s2 with
              | EmptyString => s
              | String c3 s3 =>
                  if (if backwards then isspace_3 c3 c2 c1 else isspace_3 c1 c2 c3)
                  then strip_left backwards s3
                  else s
              end
        end
  end.

Definition lstrip (s : string) : string := strip_left false s.

Definition rstrip (s : string) : string := String.rev (strip_left true (String.rev s)).

Definition strip (s : string) : string := rstrip (lstrip s).

Definition lower_char (c : ascii) : ascii :=
  let n := code c in
  if (65 <=? n) && (n <=? 90) then ascii_of_N (Z.to_N (n + 32)) else c.

Fixpoint lower (s : string) : string :=
  match s with
  | String c s' => String (lower_char c) (lower s')
  | EmptyString => EmptyString
  end.

(** ['=' * n] *)
Fixpoint repeat_str (s : string) (n : nat) : string :=
  match n with
  | O => EmptyString
  | S n' => s +:+ repeat_str s n'
  end.

(** [x or ""] for an optional string: [None] and the empty string are
    falsy. *)
Definition or_empty (x : option string) : string :=
  match x with
  | Some s => s
  | None => EmptyString
  end.

(** An optional string inside an f-string: [None] prints as its name. *)
Definition format_opt (x : option string) : string :=
  match x with
  | Some s => s
  | None => "None"
  end.

(** [t] occurs verbatim inside [s]. *)
Definition contains (s t : string) : Prop :=
  exists pre post, s = pre +:+ t +:+ post.

End PyStr.

Import PyStr.

(** ** Values kept in the state dictionary *)

Inductive PyVal : Type :=
| VStr (s : string)
| VInt (z : Z).

Inductive exn : Type :=
| ValueError
| EOFError.

Inductive Exc (A : Type) : Type :=
| Ok (a : A)
| Raise (e : exn).
Arguments Ok {A} a.
Arguments Raise {A} e.

Module PyInt.

Definition digit_of (c : ascii) : option Z :=
  let n := code c in
  if (48 <=? n) && (n <=? 57) then Some (n - 48) else None.

(** Decimal digits, single underscores allowed between two digits. *)
Fixpoint parse_digits (acc : Z) (after_digit : bool) (s : string) : option Z :=
  match s with
  | EmptyString => if after_digit then Some acc else None
  | String c s' =>
      if Ascii.eqb c "_"
      then (if after_digit then parse_digits acc false s' else None)
      else match digit_of c with
           | Some d => parse_digits (10 * acc + d) true s'
           | None => None
           end
  end.

(** One of the separators 0x1c-0x1f occurs in [s]: [str.strip] takes them
    for whitespace, [int] does not. *)
Fixpoint has_separator (s : string) : bool :=
  match s with
  | EmptyString => false
  | String c s' => ((28 <=? code c) && (code c <=? 31)) || has_separator s'
  end.

Fixpoint count_digits (s : string) : Z :=
  match s with
  | EmptyString => 0
  | String c s' => (match digit_of c with Some _ => 1 | None => 0 end) + count_digits s'
  end.

(** [int(s)] for a string, [None] where it raises [ValueError]: whitespace
    around, a sign, decimal digits with single underscores between them, at
    most 4300 digits (the default [sys.int_max_str_digits]).  The decimal
    digits outside ASCII, which [int] reads too, are left out: a string with
    one of them is refused here. *)
Definition parse (s : string) : option Z :=
  if has_separator s || (4300 <? count_digits s) then None
  else
    match strip s with
    | String "+" r => parse_digits 0 false r
    | String "-" r => Z.opp <$> parse_digits 0 false r
    | t => parse_digits 0 false t
    end.

(** [int(v)] *)
Definition int (v : PyVal) : Exc Z :=
  match v with
  | VInt z => Ok z
  | VStr s => match parse s with
              | Some z => Ok z
              | None => Raise ValueError
              end
  end.

End PyInt.

(** [str(v)], as an f-string formats a value. *)
Definition format (v : PyVal) : string :=
  match v with
  | VStr s => s
  | VInt z => pretty z
  end.

(** Truthiness of a value. *)
Definition truthy (v : PyVal) : bool :=
  match v with
  | VStr s => negb (String.eqb s EmptyString)
  | VInt z => negb (z =? 0)
  end.

(** [state.get(key, default)] *)
Definition get (state : gmap string PyVal) (key : string) (default : PyVal) : PyVal :=
  match state !! key with
  | Some v => v
  | None => default
  end.

(** ** Messages and the workflow context *)

Record HumanReviewRequest : Type := {
  prompt : string;
  draft_content : PyVal;
  reviewer_feedback : string;
  iteration : Z;
}.

Inductive Role : Type := SYSTEM | USER | ASSISTANT | TOOL.

Record ChatMessage : Type := {
  role : Role;
  text : string;
}.

(** What a handler passes to [ctx.send_message]. *)
Inductive Message : Type :=
| ReviewRequest (request : HumanReviewRequest)
| AgentExecutorRequest (messages : list ChatMessage) (should_respond : bool).

(** [AgentExecutorResponse]: only [agent_run_response.text] is read. *)
Record AgentExecutorResponse : Type := {
  agent_run_response_text : option string;
}.

(** [RequestResponse[HumanReviewRequest, str]]: the request it answers and
    the reply, which may be absent. *)
Record RequestResponse : Type := {
  original_request : HumanReviewRequest;
  data : option string;
}.

(** What a handler does to the outside, in the order it does it. *)
Inductive Effect : Type :=
| SetState (state : gmap string PyVal)
| SendMessage (message : Message) (target_id : string)
| YieldOutput (output : PyVal)
| Print (line : string).

Record WorkflowContext : Type := {
  ctx_state : option (gmap string PyVal);
  ctx_effects : list Effect;
}.

(** ** State passing with exceptions

    [M S A] is a computation over a state [S] that returns an [A] or raises.
    The handlers run in it over their context, the driving loop over the
    console and the engine. *)

Definition M (S A : Type) : Type := S -> Exc (A * S).

Definition ret {S A} (a : A) : M S A := fun s => Ok (a, s).

Definition bind {S A B} (m : M S A) (k : A -> M S B) : M S B :=
  fun s =>
    match m s with
    | Ok (a, s') => k a s'
    | Raise e => Raise e
    end.

Definition lift {S A} (r : Exc A) : M S A :=
  fun s =>
    match r with
    | Ok a => Ok (a, s)
    | Raise e => Raise e
    end.

Definition Handler (A : Type) : Type := M WorkflowContext A.

Notation "x <- m ;; k" := (bind m (fun x => k))
  (at level 100, m at next level, right associativity).
Notation "m ;; k" := (bind m (fun _ => k))
  (at level 100, right associativity).

Definition emit (e : Effect) : Handler unit :=
  fun ctx => Ok (tt, {| ctx_state := ctx_state ctx; ctx_effects := ctx_effects ctx ++ [e] |}).

Definition get_state : Handler (option (gmap string PyVal)) :=
  fun ctx => Ok (ctx_state ctx, ctx).

Definition set_state (state : gmap string PyVal) : Handler unit :=
  fun ctx => Ok (tt, {| ctx_state := Some state; ctx_effects := ctx_effects ctx ++ [SetState state] |}).

Definition send_message (message : Message) (target_id : string) : Handler unit :=
  emit (SendMessage message target_id).

Definition yield_output (output : PyVal) : Handler unit :=
  emit (YieldOutput output).

Definition print (line : string) : Handler unit :=
  emit (Print line).

(** [state or {}]: a missing state and an empty dictionary are both falsy. *)
Definition or_empty_dict (state : option (gmap string PyVal)) : gmap string PyVal :=
  match state with
  | Some m => m
  | None => ∅
  end.

(** [f"\n{'='*60}"] and [f"{'='*60}"] *)
Definition rule : string := repeat_str "=" 60.

(** ** ReviewCoordinator *)

Record ReviewCoordinator : Type := {
  coordinator_id : string;
  _writer_id : string;
  _request_info_id : string;
}.

Definition review_prompt : string :=
  "レビュー結果を確認してください。" +:+ nl +:+
  "'approve' で承認、または修正指示を入力してください。".

Definition handle_reviewer_response
    (self : ReviewCoordinator) (response : AgentExecutorResponse) : Handler unit :=
  st <- get_state ;;
  let state := or_empty_dict st in
  let draft_content := get state "current_draft" (VStr "") in
  n <- lift (PyInt.int (get state "iteration" (VInt 0))) ;;
  let iteration := n + 1 in
  let reviewer_feedback := or_empty (agent_run_response_text response) in
  print (nl +:+ rule) ;;
  print ("反復 " +:+ pretty iteration +:+ ": Reviewerのフィードバック") ;;
  print rule ;;
  print reviewer_feedback ;;
  set_state {[ "iteration" := VInt iteration;
               "current_draft" := draft_content;
               "reviewer_feedback" := VStr reviewer_feedback ]} ;;
  send_message
    (ReviewRequest {| prompt := review_prompt;
                      draft_content := draft_content;
                      reviewer_feedback := reviewer_feedback;
                      iteration := iteration |})
    (_request_info_id self).

(** The revision prompt up to and including the label that introduces the
    human's instruction. *)
Definition revision_head (draft_content critique : PyVal) : string :=
  "以下のフィードバックに基づいてコンテンツを修正してください:" +:+ nl +:+ nl +:+
  "前回の下書き:" +:+ nl +:+ format draft_content +:+ nl +:+ nl +:+
  "Reviewerのフィードバック:" +:+ nl +:+ format critique +:+ nl +:+ nl +:+
  "人間からの修正指示:" +:+ nl.

Definition handle_human_decision
    (self : ReviewCoordinator) (feedback : RequestResponse) : Handler unit :=
  let human_reply := lower (strip (or_empty (data feedback))) in
  st <- get_state ;;
  let state := or_empty_dict st in
  let draft_content := get state "current_draft" (VStr "") in
  print (nl +:+ rule) ;;
  print ("人間の決定: " +:+ format_opt (data feedback)) ;;
  print rule ;;
  if String.eqb human_reply "approve" then
    print (nl +:+ "✅ コンテンツが承認されました！") ;;
    yield_output draft_content
  else
    print (nl +:+ "🔄 修正指示あり。Writerに再作成を依頼します...") ;;
    let revision_prompt :=
      revision_head draft_content (get state "reviewer_feedback" (VStr ""))
      +:+ format_opt (data feedback) in
    send_message
      (AgentExecutorRequest [ {| role := USER; text := revision_prompt |} ] true)
      (_writer_id self).

(** ** DraftCapture *)

Record DraftCapture : Type := {
  capture_id : string;
  _reviewer_id : string;
}.

Definition capture_draft
    (self : DraftCapture) (response : AgentExecutorResponse) : Handler unit :=
  let draft_content := or_empty (agent_run_response_text response) in
  print (nl +:+ rule) ;;
  print "Writerの下書き" ;;
  print rule ;;
  print draft_content ;;
  st <- get_state ;;
  let state := or_empty_dict st in
  set_state (<[ "current_draft" := VStr draft_content ]> state) ;;
  let review_request :=
    "以下のコンテンツをレビューし、品質、明確さ、正確性について" +:+
    "簡潔なフィードバックを提供してください:" +:+ nl +:+ nl +:+ draft_content in
  send_message
    (AgentExecutorRequest [ {| role := USER; text := review_request |} ] true)
    (_reviewer_id self).

(** ** The driving loop of [main] *)

Inductive WorkflowRunState : Type :=
| STARTED
| IN_PROGRESS
| IN_PROGRESS_PENDING_REQUESTS
| IDLE
| IDLE_WITH_PENDING_REQUESTS
| FAILED
| CANCELLED.

(** The payload of a [RequestInfoEvent]: a [HumanReviewRequest] or a request
    message of another class. *)
Inductive RequestData : Type :=
| HumanReview (request : HumanReviewRequest)
| OtherRequest.

Inductive Event : Type :=
| RequestInfoEvent (request_id : string) (payload : RequestData)
| WorkflowOutputEvent (output : PyVal)
| WorkflowStatusEvent (state : WorkflowRunState)
| OtherEvent.

(** [pending_responses]: a [dict[str, str]], kept in insertion order. *)
Definition dict : Type := list (string * string).

(** [d[k] = v]: an existing key keeps its place and takes the new value. *)
Fixpoint dict_set (d : dict) (k v : string) : dict :=
  match d with
  | [] => [(k, v)]
  | (k', v') :: d' =>
      if String.eqb k k' then (k, v) :: d' else (k', v') :: dict_set d' k v
  end.

Fixpoint dict_get (d : dict) (k : string) : option string :=
  match d with
  | [] => None
  | (k', v') :: d' => if String.eqb k k' then Some v' else dict_get d' k
  end.

Definition keys (d : dict) : list string := map fst d.

(** What the driver does at the console and to the engine, in order. *)
Inductive Action : Type :=
| RunStream (task : string)
| SendResponsesStreaming (responses : dict)
| ReadLine (line : string)
| ConsolePrint (text : string) (ending : string).

Definition is_engine_call (a : Action) : bool :=
  match a with
  | RunStream _ | SendResponsesStreaming _ => true
  | _ => false
  end.

Definition is_read (a : Action) : bool :=
  match a with
  | ReadLine _ => true
  | _ => false
  end.

(** The local variables of [main] that the loop updates. *)
Record Locals : Type := {
  pending_responses : option dict;
  completed : bool;
  final_output : option PyVal;
}.

(** The variables the [async for] over one stream updates. *)
Record Drained : Type := {
  pending_requests : list (string * HumanReviewRequest);
  drained_completed : bool;
  drained_final_output : option PyVal;
}.

Definition on_event (acc : Drained) (event : Event) : Drained :=
  match event with
  | RequestInfoEvent request_id (HumanReview request) =>
      {| pending_requests := pending_requests acc ++ [(request_id, request)];
         drained_completed := drained_completed acc;
         drained_final_output := drained_final_output acc |}
  | RequestInfoEvent _ OtherRequest => acc
  | WorkflowOutputEvent output =>
      {| pending_requests := pending_requests acc;
         drained_completed := true;
         drained_final_output := Some output |}
  | WorkflowStatusEvent _ => acc
  | OtherEvent => acc
  end.

(** Lines 318-337: the [async for] over the events of one stream. *)
Definition drain (was_completed : bool) (was_final : option PyVal) (events : list Event)
    : Drained :=
  fold_left on_event events
    {| pending_requests := [];
       drained_completed := was_completed;
       drained_final_output := was_final |}.

Definition is_output_event (event : Event) : bool :=
  match event with
  | WorkflowOutputEvent _ => true
  | _ => false
  end.

Definition initial_task : string :=
  "手頃な価格で楽しい新型電動SUVのスローガンを作成してください。".

Section Driver.

(** The workflow engine is the framework's: a state of its own, and two
    calls that each run it until it idles and hand back the events of the
    stream they return. *)
Variable Workflow : Type.
Variable run_stream : Workflow -> string -> list Event * Workflow.
Variable send_responses_streaming : Workflow -> dict -> list Event * Workflow.

Record World : Type := {
  workflow : Workflow;
  stdin : list string;
  actions : list Action;
}.

Definition Console (A : Type) : Type := M World A.

Definition act (a : Action) (w : World) : World :=
  {| workflow := workflow w; stdin := stdin w; actions := actions w ++ [a] |}.

Definition console_print (text : string) : Console unit :=
  fun w => Ok (tt, act (ConsolePrint text nl) w).

Definition console_print_end (text ending : string) : Console unit :=
  fun w => Ok (tt, act (ConsolePrint text ending) w).

(** [input()]: the next line of the standard input, [EOFError] at its end. *)
Definition input : Console string :=
  fun w =>
    match stdin w with
    | line :: rest =>
        Ok (line, {| workflow := workflow w; stdin := rest;
                     actions := actions w ++ [ReadLine line] |})
    | [] => Raise EOFError
    end.

Definition call_run_stream (task : string) : Console (list Event) :=
  fun w =>
    let '(events, wf) := run_stream (workflow w) task in
    Ok (events, {| workflow := wf; stdin := stdin w;
                   actions := actions w ++ [RunStream task] |}).

Definition call_send_responses_streaming (responses : dict) : Console (list Event) :=
  fun w =>
    let '(events, wf) := send_responses_streaming (workflow w) responses in
    Ok (events, {| workflow := wf; stdin := stdin w;
                   actions := actions w ++ [SendResponsesStreaming responses] |}).

(** Lines 312-316: the stream of this phase. *)
Definition open_stream (pending : option dict) : Console (list Event) :=
  match pending with
  | Some (entry :: more) => call_send_responses_streaming (entry :: more)
  | Some [] => call_run_stream initial_task
  | None => call_run_stream initial_task
  end.

(** Lines 343-353: one question and one answer for each pending request. *)
Fixpoint collect_replies (requests : list (string * HumanReviewRequest))
    (responses : dict) : Console dict :=
  match requests with
  | [] => ret responses
  | (request_id, request_data) :: rest =>
      console_print (nl +:+ rule) ;;
      console_print ("人間のレビューが必要 (反復 " +:+ pretty (iteration request_data) +:+ ")") ;;
      console_print rule ;;
      console_print (nl +:+ "📝 下書き:" +:+ nl +:+ format (draft_content request_data)) ;;
      console_print (nl +:+ "💬 Reviewerのフィードバック:" +:+ nl +:+ reviewer_feedback request_data) ;;
      console_print (nl +:+ prompt request_data) ;;
      console_print_end
        (nl +:+ "入力してください ('approve' で承認、または修正指示): ") "" ;;
      line <- input ;;
      let user_input := strip line in
      collect_replies rest (dict_set responses request_id user_input)
  end.

(** Lines 311-358: the body of [while not completed]. *)
Definition loop_body (v : Locals) : Console Locals :=
  events <- open_stream (pending_responses v) ;;
  let drained := drain (completed v) (final_output v) events in
  match pending_requests drained, drained_completed drained with
  | _ :: _, false =>
      responses <- collect_replies (pending_requests drained) [] ;;
      ret {| pending_responses := Some responses;
             completed := drained_completed drained;
             final_output := drained_final_output drained |}
  | _, done =>
      ret {| pending_responses := None;
             completed := if negb done then true else done;
             final_output := drained_final_output drained |}
  end.

(** [while not completed], with a bound on the number of phases: [None]
    when the bound is reached with the loop still running. *)
Fixpoint while_not_completed (fuel : nat) (v : Locals) (w : World)
    : option (Exc (Locals * World)) :=
  if completed v then Some (Ok (v, w))
  else
    match fuel with
    | O => None
    | S fuel' =>
        match loop_body v w with
        | Ok (v', w') => while_not_completed fuel' v' w'
        | Raise e => Some (Raise e)
        end
    end.

(** Lines 361-368: the final display. *)
Definition show_final (final : option PyVal) : Console unit :=
  match final with
  | Some out =>
      if truthy out then
        console_print (nl +:+ rule) ;;
        console_print "✨ 最終承認コンテンツ" ;;
        console_print rule ;;
        console_print (format out) ;;
        console_print (nl +:+ rule) ;;
        console_print "ワークフロー完了!" ;;
        console_print rule
      else ret tt
  | None => ret tt
  end.

Definition initial_locals : Locals :=
  {| pending_responses := None; completed := false; final_output := None |}.

(** Lines 302-368 of [main], from the workflow it has built. *)
Definition main (fuel : nat) (w : World) : option (Exc (option PyVal * World)) :=
  match console_print (nl +:+ "初期タスク: " +:+ initial_task) w with
  | Ok (_, w0) =>
      match while_not_completed fuel initial_locals w0 with
      | Some (Ok (v, w1)) =>
          match show_final (final_output v) w1 with
          | Ok (_, w2) => Some (Ok (final_output v, w2))
          | Raise e => Some (Raise e)
          end
      | Some (Raise e) => Some (Raise e)
      | None => None
      end
  | Raise e => Some (Raise e)
  end.

(** *** Observations on the driver *)

(** The engine call that opens the stream of a phase, and what the engine
    hands back for it. *)
Definition stream_call (pending : option dict) : Action :=
  match pending with
  | Some (entry :: more) => SendResponsesStreaming (entry :: more)
  | Some [] => RunStream initial_task
  | None => RunStream initial_task
  end.

Definition stream_result (pending : option dict) (wf : Workflow)
    : list Event * Workflow :=
  match pending with
  | Some (entry :: more) => send_responses_streaming wf (entry :: more)
  | Some [] => run_stream wf initial_task
  | None => run_stream wf initial_task
  end.

(** What the console shows for one pending request before it reads. *)
Definition question (request_data : HumanReviewRequest) : list Action :=
  [ ConsolePrint (nl +:+ rule) nl;
    ConsolePrint ("人間のレビューが必要 (反復 " +:+ pretty (iteration request_data) +:+ ")") nl;
    ConsolePrint rule nl;
    ConsolePrint (nl +:+ "📝 下書き:" +:+ nl +:+ format (draft_content request_data)) nl;
    ConsolePrint (nl +:+ "💬 Reviewerのフィードバック:" +:+ nl +:+ reviewer_feedback request_data) nl;
    ConsolePrint (nl +:+ prompt request_data) nl;
    ConsolePrint (nl +:+ "入力してください ('approve' で承認、または修正指示): ") "" ].

(** The console log of asking [requests] and reading [lines] in turn. *)
Fixpoint dialogue (requests : list (string * HumanReviewRequest)) (lines : list string)
    : list Action :=
  match requests, lines with
  | (_, request_data) :: requests', line :: lines' =>
      question request_data ++ ReadLine line :: dialogue requests' lines'
  | _, _ => []
  end.

(** The dictionary after the stripped [lines] were stored under the ids of
    [requests] in turn. *)
Fixpoint answered (requests : list (string * HumanReviewRequest)) (lines : list string)
    (d : dict) : dict :=
  match requests, lines with
  | (request_id, _) :: requests', line :: lines' =>
      answered requests' lines' (dict_set d request_id (strip line))
  | _, _ => d
  end.

(** The states the loop of [main] can be in when it tests [completed]. *)
Inductive reachable : Locals -> World -> Prop :=
| reachable_start w : reachable initial_locals w
| reachable_step v w v' w' :
    reachable v w -> completed v = false -> loop_body v w = Ok (v', w') ->
    reachable v' w'.

End Driver.

Arguments workflow {Workflow} w.
Arguments stdin {Workflow} w.
Arguments actions {Workflow} w.

(** ** Observations used in the statements *)

(** The effects a handler added when it took [before] to [after]. *)
Definition new_effects (before after : WorkflowContext) : list Effect :=
  drop (length (ctx_effects before)) (ctx_effects after).

Definition outputs (effects : list Effect) : list PyVal :=
  omap (fun e => match e with YieldOutput v => Some v | _ => None end) effects.

Definition sent (effects : list Effect) : list (Message * string) :=
  omap (fun e => match e with SendMessage m t => Some (m, t) | _ => None end) effects.

Definition state_writes (effects : list Effect) : list (gmap string PyVal) :=
  omap (fun e => match e with SetState st => Some st | _ => None end) effects.

(** The dictionary a handler sees: [ctx.get_state() or {}]. *)
Definition store (ctx : WorkflowContext) : gmap string PyVal :=
  or_empty_dict (ctx_state ctx).

(** The iteration counter as [handle_reviewer_response] reads it. *)
Definition iteration_of (ctx : WorkflowContext) : Exc Z :=
  PyInt.int (get (store ctx) "iteration" (VInt 0)).

(** The reply as [handle_human_decision] normalises it. *)
Definition normalized (feedback : RequestResponse) : string :=
  lower (strip (or_empty (data feedback))).

(** The request the coordinator sends to the writer on the revision path. *)
Definition revision_request (ctx : WorkflowContext) (feedback : RequestResponse) : Message :=
  AgentExecutorRequest
    [ {| role := USER;
         text := revision_head (get (store ctx) "current_draft" (VStr ""))
                               (get (store ctx) "reviewer_feedback" (VStr ""))
                 +:+ format_opt (data feedback) |} ]
    true.

(** Several critiques relayed one after the other. *)
Fixpoint relay_all (self : ReviewCoordinator) (critiques : list AgentExecutorResponse)
    : Handler unit :=
  match critiques with
  | [] => ret tt
  | critique :: more => handle_reviewer_response self critique ;; relay_all self more
  end.

(** The two ways [handle_human_decision] can end: the draft of the store is
    yielded and nothing is sent, or the revision request goes to the writer
    and nothing is yielded.  Either way the store is left as it was. *)
Definition takes_approval_path
    (self : ReviewCoordinator) (feedback : RequestResponse) (ctx : WorkflowContext) : Prop :=
  exists ctx',
    handle_human_decision self feedback ctx = Ok (tt, ctx')
    /\ outputs (new_effects ctx ctx') = [get (store ctx) "current_draft" (VStr "")]
    /\ sent (new_effects ctx ctx') = []
    /\ ctx_state ctx' = ctx_state ctx.

Definition takes_revision_path
    (self : ReviewCoordinator) (feedback : RequestResponse) (ctx : WorkflowContext) : Prop :=
  exists ctx',
    handle_human_decision self feedback ctx = Ok (tt, ctx')
    /\ outputs (new_effects ctx ctx') = []
    /\ sent (new_effects ctx ctx') = [(revision_request ctx feedback, _writer_id self)]
    /\ ctx_state ctx' = ctx_state ctx.

(** ** Sample values *)

Definition coordinator : ReviewCoordinator :=
  {| coordinator_id := "review_coordinator";
     _writer_id := "writer";
     _request_info_id := "request_info" |}.

Definition draft_capture : DraftCapture :=
  {| capture_id := "draft_capture"; _reviewer_id := "reviewer" |}.

Definition fresh_ctx : WorkflowContext :=
  {| ctx_state := None; ctx_effects := [] |}.

Definition agent_says (s : string) : AgentExecutorResponse :=
  {| agent_run_response_text := Some s |}.

Definition sample_request : HumanReviewRequest :=
  {| prompt := review_prompt;
     draft_content := VStr "Drive Bold.";
     reviewer_feedback := "too short";
     iteration := 1 |}.

Definition human_says (s : string) : RequestResponse :=
  {| original_request := sample_request; data := Some s |}.

(** A coordinator context whose state holds a draft, a critique and
    iteration 1. *)
Definition reviewed_ctx : WorkflowContext :=
  {| ctx_state := Some {[ "iteration" := VInt 1;
                          "current_draft" := VStr "Drive Bold.";
                          "reviewer_feedback" := VStr "too short" ]};
     ctx_effects := [] |}.

(** Two sample engines.  The first idles at once with nothing pending and
    nothing yielded.  The second counts its phases: its first stream raises
    two review requests, every later one yields the draft. *)
Definition idle_run_stream (wf : unit) (task : string) : list Event * unit :=
  ([WorkflowStatusEvent IN_PROGRESS; WorkflowStatusEvent IDLE], wf).

Definition idle_send_responses_streaming (wf : unit) (responses : dict) : list Event * unit :=
  ([WorkflowStatusEvent IDLE], wf).

Definition two_requests_run_stream (wf : nat) (task : string) : list Event * nat :=
  ([ WorkflowStatusEvent IN_PROGRESS;
     RequestInfoEvent "r1" (HumanReview sample_request);
     RequestInfoEvent "r2" (HumanReview sample_request);
     WorkflowStatusEvent IDLE_WITH_PENDING_REQUESTS ], S wf).

Definition two_requests_send_responses_streaming (wf : nat) (responses : dict)
    : list Event * nat :=
  ([ WorkflowOutputEvent (VStr "Drive Bold."); WorkflowStatusEvent IDLE ], S wf).

Definition console {Workflow : Type} (wf : Workflow) (lines : list string) : World Workflow :=
  {| workflow := wf; stdin := lines; actions := [] |}.

(** ** Runs of handler calls *)

(** Every byte of [s] is a whitespace character of the ASCII range. *)
Fixpoint all_space (s : string) : bool :=
  match s with
  | String c s' => isspace_ascii c && all_space s'
  | EmptyString => true
  end.

(** The request [capture_draft] sends to the reviewer for [draft]. *)
Definition review_request (draft : string) : Message :=
  AgentExecutorRequest
    [ {| role := USER;
         text := "以下のコンテンツをレビューし、品質、明確さ、正確性について" +:+
                 "簡潔なフィードバックを提供してください:" +:+ nl +:+ nl +:+ draft |} ]
    true.

(** One message delivered to one of the two executors. *)
Inductive Call : Type :=
| CaptureDraft (response : AgentExecutorResponse)
| ReviewerResponse (response : AgentExecutorResponse)
| HumanDecision (feedback : RequestResponse).

(** The contexts of a run: the framework hands each executor a context over
    the state of that executor, so what [DraftCapture] writes with
    [set_state] is not what [ReviewCoordinator] reads with [get_state]. *)
Record Run : Type := {
  capture_ctx : WorkflowContext;
  coordinator_ctx : WorkflowContext;
}.

Definition fresh_run : Run :=
  {| capture_ctx := {| ctx_state := None; ctx_effects := [] |};
     coordinator_ctx := {| ctx_state := None; ctx_effects := [] |} |}.

(** A handler of [DraftCapture], run on the context of that executor. *)
Definition on_capture (h : Handler unit) : M Run unit :=
  fun run =>
    match h (capture_ctx run) with
    | Ok (a, ctx) => Ok (a, {| capture_ctx := ctx; coordinator_ctx := coordinator_ctx run |})
    | Raise e => Raise e
    end.

(** A handler of [ReviewCoordinator], run on the context of that executor. *)
Definition on_coordinator (h : Handler unit) : M Run unit :=
  fun run =>
    match h (coordinator_ctx run) with
    | Ok (a, ctx) => Ok (a, {| capture_ctx := capture_ctx run; coordinator_ctx := ctx |})
    | Raise e => Raise e
    end.

Definition handle (capture : DraftCapture) (self : ReviewCoordinator) (call : Call)
    : M Run unit :=
  match call with
  | CaptureDraft response => on_capture (capture_draft capture response)
  | ReviewerResponse response => on_coordinator (handle_reviewer_response self response)
  | HumanDecision feedback => on_coordinator (handle_human_decision self feedback)
  end.

(** The calls of a run, each handled on the context of its executor. *)
Fixpoint handle_all (capture : DraftCapture) (self : ReviewCoordinator) (calls : list Call)
    : M Run unit :=
  match calls with
  | [] => ret tt
  | call :: more => handle capture self call ;; handle_all capture self more
  end.

Definition is_relay (call : Call) : bool :=
  match call with
  | ReviewerResponse _ => true
  | _ => false
  end.

Definition is_approval (call : Call) : bool :=
  match call with
  | HumanDecision feedback => String.eqb (normalized feedback) "approve"
  | _ => false
  end.

(** The iteration numbers of the review requests among [effects], in order. *)
Definition review_iterations (effects : list Effect) : list Z :=
  omap (fun e => match e with
                 | SendMessage (ReviewRequest request) _ => Some (iteration request)
                 | _ => None
                 end) effects.

(** ** Reading a stream *)

(** The payload of the last [WorkflowOutputEvent] of a stream, if any. *)
Definition last_output (events : list Event) : option PyVal :=
  last (omap (fun e => match e with
                       | WorkflowOutputEvent output => Some output
                       | _ => None
                       end) events).

(** The human-review requests of a stream, in order. *)
Definition review_requests (events : list Event) : list (string * HumanReviewRequest) :=
  omap (fun e => match e with
                 | RequestInfoEvent request_id (HumanReview request) =>
                     Some (request_id, request)
                 | _ => None
                 end) events.

(** The seven lines of the final display. *)
Definition final_display (out : PyVal) : list Action :=
  [ ConsolePrint (nl +:+ rule) nl;
    ConsolePrint "✨ 最終承認コンテンツ" nl;
    ConsolePrint rule nl;
    ConsolePrint (format out) nl;
    ConsolePrint (nl +:+ rule) nl;
    ConsolePrint "ワークフロー完了!" nl;
    ConsolePrint rule nl ].

(** An engine call that is [send_responses_streaming] with an entry in it. *)
Definition is_send_nonempty (a : Action) : bool :=
  match a with
  | SendResponsesStreaming (_ :: _) => true
  | _ => false
  end.

(** What the final display adds to the console for [final]. *)
Definition shown (final : option PyVal) : list Action :=
  match final with
  | Some out => if truthy out then final_display out else []
  | None => []
  end.

(** Either no engine call, or [send_responses_streaming] with an entry. *)
Definition no_call_or_send (a : Action) : bool :=
  negb (is_engine_call a) || is_send_nonempty a.

(** Two more sample engines: one whose first stream raises a request and
    then yields twice, one whose first stream yields the empty string. *)
Definition early_output_run_stream (wf : unit) (task : string) : list Event * unit :=
  ([ RequestInfoEvent "r1" (HumanReview sample_request);
     WorkflowOutputEvent (VStr "Drive.");
     WorkflowOutputEvent (VStr "Drive Bold.") ], wf).

Definition empty_output_run_stream (wf : unit) (task : string) : list Event * unit :=
  ([ WorkflowOutputEvent (VStr ""); WorkflowStatusEvent IDLE ], wf).

(** * Properties of the handlers *)

Ltac run_handler :=
  unfold handle_human_decision, handle_reviewer_response, capture_draft,
    bind, get_state, set_state, send_message, yield_output, print, emit, lift, ret;
  cbn [ctx_state ctx_effects data agent_run_response_text].

Lemma new_effects_app ctx ctx' added :
  ctx_effects ctx' = ctx_effects ctx ++ added -> new_effects ctx ctx' = added.
Proof.
  intros E. unfold new_effects. rewrite E. apply drop_app_length.
Qed.

Lemma get_lookup (state : gmap string PyVal) key default v :
  state !! key = Some v -> get state key default = v.
Proof. intros E. unfold get. now rewrite E. Qed.

Lemma get_missing (state : gmap string PyVal) key default :
  state !! key = None -> get state key default = default.
Proof. intros E. unfold get. now rewrite E. Qed.

Lemma contains_middle pre t post : contains (pre +:+ t +:+ post) t.
Proof. now exists pre, post. Qed.

Lemma contains_suffix pre t : contains (pre +:+ t) t.
Proof.
  exists pre, "". f_equal. clear pre. induction t as [|c t IH]; [reflexivity|].
  change (String c t +:+ "") with (String c (t +:+ "")). now rewrite <- IH.
Qed.

Lemma string_app_assoc (a b c : string) : (a +:+ b) +:+ c = a +:+ b +:+ c.
Proof.
  induction a as [|x a IH]; [reflexivity|].
  change (String x (a +:+ b) +:+ c = String x (a +:+ b +:+ c)).
  change (String x ((a +:+ b) +:+ c) = String x (a +:+ b +:+ c)). now rewrite IH.
Qed.

(** What [capture_draft] does, in full. *)
Lemma capture_draft_run self response ctx :
  let draft := or_empty (agent_run_response_text response) in
  exists ctx',
    capture_draft self response ctx = Ok (tt, ctx')
    /\ ctx_state ctx' = Some (<[ "current_draft" := VStr draft ]> (store ctx))
    /\ state_writes (new_effects ctx ctx') = [<[ "current_draft" := VStr draft ]> (store ctx)]
    /\ outputs (new_effects ctx ctx') = [].
Proof.
  intros draft. eexists. split; [run_handler; reflexivity|].
  cbn [ctx_state]. split; [reflexivity|].
  unfold new_effects. cbn [ctx_effects].
  rewrite <- !(assoc_L (++)). rewrite drop_app_length. split; reflexivity.
Qed.

(** [capture_draft] always returns, and the counter reads as before. *)
Lemma capture_draft_keeps_iteration self response ctx :
  exists ctx',
    capture_draft self response ctx = Ok (tt, ctx')
    /\ iteration_of ctx' = iteration_of ctx.
Proof.
  destruct (capture_draft_run self response ctx) as (ctx' & Hrun & Hst & _).
  exists ctx'. split; [exact Hrun|].
  unfold iteration_of, get, store. rewrite Hst. cbn [or_empty_dict].
  now rewrite lookup_insert_ne by congruence.
Qed.

(** C8: [capture_draft] stores the new draft under [current_draft] and merges
    it into the state it found: every other key, the iteration count among
    them, keeps the value it had (or stays absent). *)
Theorem capture_draft_preserves_other_fields self response ctx :
  exists ctx',
    capture_draft self response ctx = Ok (tt, ctx')
    /\ store ctx' !! "current_draft"
       = Some (VStr (or_empty (agent_run_response_text response)))
    /\ (forall key, key <> "current_draft" -> store ctx' !! key = store ctx !! key)
    /\ store ctx' !! "iteration" = store ctx !! "iteration"
    /\ iteration_of ctx' = iteration_of ctx.
Proof.
  destruct (capture_draft_run self response ctx) as (ctx' & Hrun & Hst & _).
  exists ctx'. split; [exact Hrun|].
  assert (Hother : forall key, key <> "current_draft" -> store ctx' !! key = store ctx !! key).
  { intros key Hne. unfold store at 1. rewrite Hst. cbn [or_empty_dict].
    apply lookup_insert_ne. congruence. }
  split.
  - unfold store at 1. rewrite Hst. cbn [or_empty_dict]. apply lookup_insert_eq.
  - split; [exact Hother|]. split; [now apply Hother|].
    unfold iteration_of, get. now rewrite Hother.
Qed.

(** What [handle_reviewer_response] does when the counter it reads is an
    integer: four prints, one [set_state], one message. *)
Lemma handle_reviewer_response_run self response ctx n :
  iteration_of ctx = Ok n ->
  let draft := get (store ctx) "current_draft" (VStr "") in
  let critique := or_empty (agent_run_response_text response) in
  let state' : gmap string PyVal :=
    {[ "iteration" := VInt (n + 1);
       "current_draft" := draft;
       "reviewer_feedback" := VStr critique ]} in
  let request :=
    {| prompt := review_prompt; draft_content := draft;
       reviewer_feedback := critique; iteration := n + 1 |} in
  handle_reviewer_response self response ctx
  = Ok (tt, {| ctx_state := Some state';
               ctx_effects :=
                 ctx_effects ctx ++
                 [ Print (nl +:+ rule);
                   Print ("反復 " +:+ pretty (n + 1) +:+ ": Reviewerのフィードバック");
                   Print rule;
                   Print critique;
                   SetState state';
                   SendMessage (ReviewRequest request) (_request_info_id self) ] |}).
Proof.
  intros Hn. unfold iteration_of, store in Hn. cbv zeta. run_handler.
  unfold store. rewrite Hn. cbn [ctx_state ctx_effects].
  rewrite <- !(assoc_L (++)). reflexivity.
Qed.

(** A counter that is no integer makes the handler raise before it does
    anything. *)
Lemma handle_reviewer_response_raises self response ctx e :
  iteration_of ctx = Raise e -> handle_reviewer_response self response ctx = Raise e.
Proof.
  intros Hn. unfold iteration_of, store in Hn. run_handler. now rewrite Hn.
Qed.

Lemma iteration_of_written (state : gmap string PyVal) effects n :
  state !! "iteration" = Some (VInt n) ->
  iteration_of {| ctx_state := Some state; ctx_effects := effects |} = Ok n.
Proof.
  intros E. unfold iteration_of, store, get. cbn [ctx_state or_empty_dict].
  now rewrite E.
Qed.

Lemma state_writes_app a b : state_writes (a ++ b) = state_writes a ++ state_writes b.
Proof. apply omap_app. Qed.

(** Relaying [k] critiques adds [k] to the counter, one state write each. *)
Lemma relay_all_counts self critiques : forall ctx n,
  iteration_of ctx = Ok n ->
  exists ctx' added,
    relay_all self critiques ctx = Ok (tt, ctx')
    /\ ctx_effects ctx' = ctx_effects ctx ++ added
    /\ iteration_of ctx' = Ok (n + Z.of_nat (length critiques))
    /\ length (state_writes added) = length critiques.
Proof.
  induction critiques as [|critique more IH]; intros ctx n Hn.
  - exists ctx, []. cbn [relay_all length]. repeat split.
    + now rewrite app_nil_r.
    + rewrite Hn. f_equal. lia.
  - cbn [relay_all]. unfold bind at 1.
    rewrite (handle_reviewer_response_run self critique ctx n Hn). cbv zeta.
    match goal with |- context [relay_all self more ?c] => set (ctx1 := c) end.
    assert (H1 : iteration_of ctx1 = Ok (n + 1)).
    { unfold ctx1. apply iteration_of_written. apply lookup_insert_eq. }
    destruct (IH ctx1 (n + 1) H1) as (ctx' & added & Hrun & Heff & Hit & Hlen).
    exists ctx'. eexists. split; [exact Hrun|]. split.
    + rewrite Heff. unfold ctx1. cbn [ctx_effects]. rewrite <- (assoc_L (++)). reflexivity.
    + split.
      * rewrite Hit. f_equal. cbn [length]. lia.
      * rewrite state_writes_app. rewrite length_app. rewrite Hlen. reflexivity.
Qed.

(** C2: from a state whose counter reads [n] (0 when the key is absent),
    capturing a draft leaves the counter at [n]; relaying one critique after
    it stores [n + 1] with a single state write; and relaying [k] critiques
    in a row stores [n + k] with [k] state writes, so no relay is skipped or
    counted twice. *)
Theorem capture_then_relay_increments_once
    capture self draft critique ctx n (Hn : iteration_of ctx = Ok n) :
  exists ctx1 ctx2,
    capture_draft capture draft ctx = Ok (tt, ctx1)
    /\ iteration_of ctx1 = Ok n
    /\ handle_reviewer_response self critique ctx1 = Ok (tt, ctx2)
    /\ store ctx2 !! "iteration" = Some (VInt (n + 1))
    /\ length (state_writes (new_effects ctx1 ctx2)) = 1%nat
    /\ (forall critiques, exists ctx3,
          relay_all self critiques ctx1 = Ok (tt, ctx3)
          /\ iteration_of ctx3 = Ok (n + Z.of_nat (length critiques))
          /\ length (state_writes (new_effects ctx1 ctx3)) = length critiques).
Proof.
  destruct (capture_draft_keeps_iteration capture draft ctx)
    as (ctx1 & Hcap & Hit).
  rewrite Hn in Hit.
  exists ctx1. eexists. split; [exact Hcap|]. split; [exact Hit|].
  split; [apply (handle_reviewer_response_run self critique ctx1 n Hit)|].
  cbv zeta. split; [unfold store; cbn [ctx_state or_empty_dict]; apply lookup_insert_eq|].
  split.
  - erewrite new_effects_app by (cbn [ctx_effects]; reflexivity). reflexivity.
  - intros critiques.
    destruct (relay_all_counts self critiques ctx1 n Hit)
      as (ctx3 & added & Hrun & Heff & Hit3 & Hlen).
    exists ctx3. split; [exact Hrun|]. split; [exact Hit3|].
    now rewrite (new_effects_app _ _ _ Heff).
Qed.

(** C2 at a fresh context: the counter reads 0 and one relay stores 1. *)
Lemma capture_then_relay_increments_once_witness :
  iteration_of fresh_ctx = Ok 0
  /\ exists ctx1 ctx2,
       capture_draft draft_capture (agent_says "Drive Bold.") fresh_ctx = Ok (tt, ctx1)
       /\ handle_reviewer_response coordinator (agent_says "too short") ctx1 = Ok (tt, ctx2)
       /\ store ctx2 !! "iteration" = Some (VInt 1).
Proof.
  split; [reflexivity|].
  destruct (capture_then_relay_increments_once draft_capture coordinator
              (agent_says "Drive Bold.") (agent_says "too short") fresh_ctx 0 eq_refl)
    as (ctx1 & ctx2 & H1 & _ & H2 & H3 & _).
  exists ctx1, ctx2. auto.
Defined.

(** One relay seen alone: it writes the counter, what it found under
    current_draft in the coordinator's own state and the critique it
    received in one [set_state], which replaces the state, and then sends the
    Human Gate a request with those three values. *)
Theorem relay_binds_critique_to_draft self response ctx n (Hn : iteration_of ctx = Ok n) :
  let draft := get (store ctx) "current_draft" (VStr "") in
  let critique := or_empty (agent_run_response_text response) in
  exists ctx' request,
    handle_reviewer_response self response ctx = Ok (tt, ctx')
    /\ request = {| prompt := review_prompt; draft_content := draft;
                    reviewer_feedback := critique; iteration := n + 1 |}
    /\ ctx_state ctx' = Some {[ "iteration" := VInt (iteration request);
                                "current_draft" := draft_content request;
                                "reviewer_feedback" := VStr (reviewer_feedback request) ]}
    /\ state_writes (new_effects ctx ctx') = [store ctx']
    /\ sent (new_effects ctx ctx') = [(ReviewRequest request, _request_info_id self)]
    /\ store ctx' !! "iteration" = Some (VInt (n + 1))
    /\ store ctx' !! "current_draft" = Some draft
    /\ store ctx' !! "reviewer_feedback" = Some (VStr critique).
Proof.
  intros draft critique. eexists. eexists.
  split; [apply (handle_reviewer_response_run self response ctx n Hn)|].
  cbv zeta. split; [reflexivity|]. cbn [ctx_state iteration draft_content reviewer_feedback].
  split; [reflexivity|].
  erewrite new_effects_app by (cbn [ctx_effects]; reflexivity).
  unfold store. cbn [ctx_state or_empty_dict].
  split; [reflexivity|]. split; [reflexivity|].
  split; [apply lookup_insert_eq|].
  split.
  - rewrite lookup_insert_ne by discriminate. apply lookup_insert_eq.
  - rewrite lookup_insert_ne by discriminate. rewrite lookup_insert_ne by discriminate.
    apply lookup_singleton_eq.
Qed.

(** The same on a state whose counter reads 1. *)
Lemma relay_binds_critique_to_draft_witness :
  iteration_of reviewed_ctx = Ok 1
  /\ exists ctx' request,
       handle_reviewer_response coordinator (agent_says "still short") reviewed_ctx
       = Ok (tt, ctx')
       /\ sent (new_effects reviewed_ctx ctx') = [(ReviewRequest request, "request_info")]
       /\ draft_content request = VStr "Drive Bold."
       /\ reviewer_feedback request = "still short"
       /\ iteration request = 2.
Proof.
  split; [reflexivity|].
  destruct (relay_binds_critique_to_draft coordinator (agent_says "still short")
              reviewed_ctx 1 eq_refl)
    as (ctx' & request & Hrun & Hreq & _ & _ & Hsent & _).
  exists ctx', request. split; [exact Hrun|]. split; [exact Hsent|].
  rewrite Hreq. repeat split.
Defined.

(** ** The human decision *)

(** The approval branch: four prints and the draft of the store yielded. *)
Lemma handle_human_decision_approve self feedback ctx :
  normalized feedback = "approve" ->
  handle_human_decision self feedback ctx
  = Ok (tt, {| ctx_state := ctx_state ctx;
               ctx_effects :=
                 ctx_effects ctx ++
                 [ Print (nl +:+ rule);
                   Print ("人間の決定: " +:+ format_opt (data feedback));
                   Print rule;
                   Print (nl +:+ "✅ コンテンツが承認されました！");
                   YieldOutput (get (store ctx) "current_draft" (VStr "")) ] |}).
Proof.
  intros Ha. unfold normalized in Ha. run_handler. rewrite Ha.
  change (String.eqb "approve" "approve") with true. cbv iota.
  cbn [ctx_state ctx_effects]. rewrite <- !(assoc_L (++)). reflexivity.
Qed.

(** The revision branch: four prints and one request to the writer. *)
Lemma handle_human_decision_revise self feedback ctx :
  normalized feedback <> "approve" ->
  handle_human_decision self feedback ctx
  = Ok (tt, {| ctx_state := ctx_state ctx;
               ctx_effects :=
                 ctx_effects ctx ++
                 [ Print (nl +:+ rule);
                   Print ("人間の決定: " +:+ format_opt (data feedback));
                   Print rule;
                   Print (nl +:+ "🔄 修正指示あり。Writerに再作成を依頼します...");
                   SendMessage (revision_request ctx feedback) (_writer_id self) ] |}).
Proof.
  intros Hr. unfold normalized in Hr. run_handler.
  destruct (String.eqb_spec (lower (strip (or_empty (data feedback)))) "approve")
    as [E|_]; [contradiction|].
  cbn [ctx_state ctx_effects]. rewrite <- !(assoc_L (++)). reflexivity.
Qed.

Lemma approve_takes_approval_path self feedback ctx :
  normalized feedback = "approve" -> takes_approval_path self feedback ctx.
Proof.
  intros Ha. eexists. split; [apply handle_human_decision_approve, Ha|].
  erewrite new_effects_app by (cbn [ctx_effects]; reflexivity).
  repeat split.
Qed.

Lemma other_takes_revision_path self feedback ctx :
  normalized feedback <> "approve" -> takes_revision_path self feedback ctx.
Proof.
  intros Hr. eexists. split; [apply handle_human_decision_revise, Hr|].
  erewrite new_effects_app by (cbn [ctx_effects]; reflexivity).
  repeat split.
Qed.

(** The handler never raises. *)
Lemma handle_human_decision_total self feedback ctx :
  exists ctx', handle_human_decision self feedback ctx = Ok (tt, ctx').
Proof.
  destruct (decide (normalized feedback = "approve")) as [Ha|Hr].
  - eexists. apply handle_human_decision_approve, Ha.
  - eexists. apply handle_human_decision_revise, Hr.
Qed.

(** The two paths exclude each other. *)
Lemma paths_exclusive self feedback ctx :
  takes_approval_path self feedback ctx -> takes_revision_path self feedback ctx -> False.
Proof.
  intros (c1 & H1 & O1 & _) (c2 & H2 & O2 & _).
  rewrite H1 in H2. injection H2 as <-. rewrite O1 in O2. discriminate.
Qed.

(** C10: an approving reply with no [current_draft] in the store (no state
    at all, or a state without the key) does not raise and yields the empty
    string. *)
Theorem approve_without_draft_yields_empty self feedback ctx
    (Hnone : store ctx !! "current_draft" = None)
    (Ha : normalized feedback = "approve") :
  exists ctx',
    handle_human_decision self feedback ctx = Ok (tt, ctx')
    /\ outputs (new_effects ctx ctx') = [VStr ""]
    /\ sent (new_effects ctx ctx') = [].
Proof.
  destruct (approve_takes_approval_path self feedback ctx Ha)
    as (ctx' & Hrun & Hout & Hsent & _).
  exists ctx'. rewrite (get_missing _ _ _ Hnone) in Hout. auto.
Qed.

(** C10 on a context that was never written. *)
Lemma approve_without_draft_yields_empty_witness :
  ctx_state fresh_ctx = None
  /\ exists ctx',
       handle_human_decision coordinator (human_says "approve") fresh_ctx = Ok (tt, ctx')
       /\ outputs (new_effects fresh_ctx ctx') = [VStr ""].
Proof.
  split; [reflexivity|].
  destruct (approve_without_draft_yields_empty coordinator (human_says "approve")
              fresh_ctx eq_refl eq_refl)
    as (ctx' & Hrun & Hout & _).
  exists ctx'. auto.
Defined.

(** The revision prompt is fixed text around the draft and the critique. *)
Lemma revision_head_parts d c :
  exists a b e, revision_head d c = a +:+ format d +:+ b +:+ format c +:+ e.
Proof.
  exists ("以下のフィードバックに基づいてコンテンツを修正してください:" +:+ nl +:+ nl +:+
          "前回の下書き:" +:+ nl),
         (nl +:+ nl +:+ "Reviewerのフィードバック:" +:+ nl),
         (nl +:+ nl +:+ "人間からの修正指示:" +:+ nl).
  unfold revision_head. rewrite !string_app_assoc. reflexivity.
Qed.

Lemma revision_prompt_contains d c instruction :
  let prompt_text := revision_head d c +:+ instruction in
  contains prompt_text (format d)
  /\ contains prompt_text (format c)
  /\ contains prompt_text instruction.
Proof.
  cbv zeta. destruct (revision_head_parts d c) as (a & b & e & ->).
  split; [|split].
  - exists a, ((b +:+ format c +:+ e) +:+ instruction).
    rewrite !string_app_assoc. reflexivity.
  - exists (a +:+ format d +:+ b), (e +:+ instruction).
    rewrite !string_app_assoc. reflexivity.
  - apply contains_suffix.
Qed.

(** One decision seen alone: a reply that does not normalise to "approve"
    makes the handler send the writer one new request and yield nothing; the
    text of the request contains what the coordinator's own state holds
    under current_draft and reviewer_feedback, and the reply after them. *)
Theorem revision_prompt_carries_draft_and_critique self feedback ctx
    (Hr : normalized feedback <> "approve") :
  let draft := get (store ctx) "current_draft" (VStr "") in
  let critique := get (store ctx) "reviewer_feedback" (VStr "") in
  exists ctx' prompt_text,
    handle_human_decision self feedback ctx = Ok (tt, ctx')
    /\ sent (new_effects ctx ctx')
       = [(AgentExecutorRequest [ {| role := USER; text := prompt_text |} ] true,
           _writer_id self)]
    /\ outputs (new_effects ctx ctx') = []
    /\ contains prompt_text (format draft)
    /\ contains prompt_text (format critique)
    /\ contains prompt_text (format_opt (data feedback)).
Proof.
  intros draft critique.
  destruct (other_takes_revision_path self feedback ctx Hr)
    as (ctx' & Hrun & Hout & Hsent & _).
  exists ctx'. eexists. split; [exact Hrun|]. split; [exact Hsent|].
  split; [exact Hout|]. apply revision_prompt_contains.
Qed.

(** The same on a state that holds "Drive Bold." and "too short". *)
Lemma revision_prompt_carries_draft_and_critique_witness :
  normalized (human_says "make it punchier") <> "approve"
  /\ exists ctx' prompt_text,
       handle_human_decision coordinator (human_says "make it punchier") reviewed_ctx
       = Ok (tt, ctx')
       /\ sent (new_effects reviewed_ctx ctx')
          = [(AgentExecutorRequest [ {| role := USER; text := prompt_text |} ] true, "writer")]
       /\ contains prompt_text "Drive Bold."
       /\ contains prompt_text "too short"
       /\ contains prompt_text "make it punchier".
Proof.
  assert (Hr : normalized (human_says "make it punchier") <> "approve")
    by (vm_compute; discriminate).
  split; [exact Hr|].
  destruct (revision_prompt_carries_draft_and_critique coordinator
              (human_says "make it punchier") reviewed_ctx Hr)
    as (ctx' & prompt_text & Hrun & Hsent & _ & Hd & Hc & Hi).
  exists ctx', prompt_text. auto.
Defined.

(** C9: approval is decided by equality of the normalised reply with
    "approve": the approval path is taken exactly when they are equal, the
    revision path exactly when they differ, and "approved", "approve." and
    "please approve" take the revision path. *)
Theorem approval_needs_exact_match self feedback ctx :
  (takes_approval_path self feedback ctx <-> normalized feedback = "approve")
  /\ (takes_revision_path self feedback ctx <-> normalized feedback <> "approve")
  /\ Forall (fun reply => takes_revision_path self (human_says reply) ctx)
            ["approved"; "approve."; "please approve"].
Proof.
  split; [|split].
  - split; [|apply approve_takes_approval_path].
    intros Happ. destruct (decide (normalized feedback = "approve")) as [Ha|Hr]; [exact Ha|].
    destruct (paths_exclusive self feedback ctx Happ
                (other_takes_revision_path self feedback ctx Hr)).
  - split; [|apply other_takes_revision_path].
    intros Hrev Ha.
    exact (paths_exclusive self feedback ctx
             (approve_takes_approval_path self feedback ctx Ha) Hrev).
  - repeat constructor; apply other_takes_revision_path; vm_compute; discriminate.
Qed.

(** * Properties of the driving loop *)

(** ** The response dictionary *)

Lemma elem_of_keys_dict_set d k v x :
  x ∈ keys (dict_set d k v) <-> x = k \/ x ∈ keys d.
Proof.
  unfold keys. induction d as [|[k' v'] d IH]; cbn [dict_set].
  - cbn. rewrite list_elem_of_singleton. rewrite elem_of_nil. tauto.
  - destruct (String.eqb_spec k k') as [->|Hne]; cbn [map fst].
    + rewrite !elem_of_cons. tauto.
    + rewrite !elem_of_cons. rewrite IH. tauto.
Qed.

Lemma dict_set_nonempty d k v : dict_set d k v <> [].
Proof. destruct d as [|[k' v'] d]; cbn; [|destruct (String.eqb k k')]; discriminate. Qed.

Lemma dict_get_set d k v x :
  dict_get (dict_set d k v) x = if String.eqb x k then Some v else dict_get d x.
Proof.
  induction d as [|[k' v'] d IH]; cbn [dict_set dict_get].
  - reflexivity.
  - destruct (String.eqb_spec k k') as [->|Hne]; cbn [dict_get].
    + destruct (String.eqb x k'); reflexivity.
    + rewrite IH. destruct (String.eqb_spec x k') as [->|Hx]; [|reflexivity].
      destruct (String.eqb_spec k' k) as [E|_]; [congruence|reflexivity].
Qed.

Lemma NoDup_keys_dict_set d k v : NoDup (keys d) -> NoDup (keys (dict_set d k v)).
Proof.
  unfold keys. induction d as [|[k' v'] d IH]; cbn [dict_set]; intros Hd.
  - cbn. apply NoDup_singleton.
  - destruct (String.eqb_spec k k') as [->|Hne]; cbn [map fst] in *; [exact Hd|].
    apply NoDup_cons in Hd as [Hk' Hd]. apply NoDup_cons. split; [|auto].
    intros Hin. apply (elem_of_keys_dict_set d k v k') in Hin as [E|Hin];
      [congruence|contradiction].
Qed.

Lemma answered_keys requests : forall lines d,
  length lines = length requests ->
  forall x, x ∈ keys (answered requests lines d) <-> x ∈ keys d \/ x ∈ map fst requests.
Proof.
  induction requests as [|[request_id request_data] requests IH];
    intros [|line lines] d Hlen x; try discriminate; cbn [answered map fst].
  - rewrite elem_of_nil. tauto.
  - rewrite IH by (cbn in Hlen; lia).
    rewrite elem_of_keys_dict_set, elem_of_cons. tauto.
Qed.

Lemma answered_NoDup requests : forall lines d,
  NoDup (keys d) -> NoDup (keys (answered requests lines d)).
Proof.
  induction requests as [|[request_id request_data] requests IH];
    intros [|line lines] d Hd; cbn [answered]; auto using NoDup_keys_dict_set.
Qed.

Lemma answered_nonempty request requests lines d :
  length lines = length (request :: requests) ->
  answered (request :: requests) lines d <> [].
Proof.
  intros Hlen E.
  assert (Hin : request.1 ∈ keys (answered (request :: requests) lines d)).
  { apply answered_keys; [exact Hlen|]. right. cbn [map]. apply elem_of_cons. now left. }
  rewrite E in Hin. cbn in Hin. now apply elem_of_nil in Hin.
Qed.

(** ** The console log of one round of questions *)

Lemma dialogue_reads requests : forall lines,
  length lines = length requests ->
  List.filter is_read (dialogue requests lines) = map ReadLine lines.
Proof.
  induction requests as [|[request_id request_data] requests IH];
    intros [|line lines] Hlen; try discriminate; [reflexivity|].
  cbn [dialogue map]. rewrite List.filter_app. cbn [question List.filter is_read app].
  f_equal. apply IH. cbn in Hlen. lia.
Qed.

Lemma dialogue_no_engine_call requests : forall lines,
  forallb (fun a => negb (is_engine_call a)) (dialogue requests lines) = true.
Proof.
  induction requests as [|[request_id request_data] requests IH];
    intros [|line lines]; try reflexivity.
  cbn [dialogue]. rewrite forallb_app. cbn [forallb]. rewrite IH. reflexivity.
Qed.

(** ** Draining a stream *)

Lemma fold_on_event_no_output events : forall acc,
  forallb (fun e => negb (is_output_event e)) events = true ->
  drained_completed (fold_left on_event events acc) = drained_completed acc
  /\ drained_final_output (fold_left on_event events acc) = drained_final_output acc.
Proof.
  induction events as [|event events IH]; intros acc Hno; [now split|].
  cbn [forallb] in Hno. apply andb_true_iff in Hno as [Hevent Hno].
  cbn [fold_left]. destruct (IH (on_event acc event) Hno) as [-> ->].
  destruct event as [request_id [request|]| | |]; try discriminate; now split.
Qed.

Lemma drain_no_output events was_completed was_final :
  forallb (fun e => negb (is_output_event e)) events = true ->
  drained_completed (drain was_completed was_final events) = was_completed
  /\ drained_final_output (drain was_completed was_final events) = was_final.
Proof. intros Hno. unfold drain. exact (fold_on_event_no_output events _ Hno). Qed.

Lemma fold_on_event_stays_completed events : forall acc,
  drained_completed acc = true ->
  drained_completed (fold_left on_event events acc) = true.
Proof.
  induction events as [|event events IH]; intros acc Hacc; [exact Hacc|].
  cbn [fold_left]. apply IH.
  destruct event as [request_id [request|]| | |]; exact Hacc || reflexivity.
Qed.

(** A stream after which [completed] is still false recorded no output. *)
Lemma fold_on_event_running events : forall acc,
  drained_completed (fold_left on_event events acc) = false ->
  drained_final_output (fold_left on_event events acc) = drained_final_output acc.
Proof.
  induction events as [|event events IH]; intros acc Hdone; [reflexivity|].
  cbn [fold_left] in *. rewrite (IH _ Hdone).
  destruct event as [request_id [request|]| | |]; try reflexivity.
  rewrite fold_on_event_stays_completed in Hdone by reflexivity. discriminate.
Qed.

Lemma drain_running events was_completed was_final :
  drained_completed (drain was_completed was_final events) = false ->
  drained_final_output (drain was_completed was_final events) = was_final.
Proof. intros Hdone. unfold drain in *. now rewrite fold_on_event_running. Qed.

Section DriverProperties.

Context {Workflow : Type}.
Variable run_stream : Workflow -> string -> list Event * Workflow.
Variable send_responses_streaming : Workflow -> dict -> list Event * Workflow.

Local Abbreviation loop_body := (loop_body Workflow run_stream send_responses_streaming).
Local Abbreviation open_stream := (open_stream Workflow run_stream send_responses_streaming).
Local Abbreviation stream_result := (stream_result Workflow run_stream send_responses_streaming).
Local Abbreviation while_not_completed :=
  (while_not_completed Workflow run_stream send_responses_streaming).
Local Abbreviation reachable := (reachable Workflow run_stream send_responses_streaming).
Local Abbreviation main := (main Workflow run_stream send_responses_streaming).
Local Abbreviation collect_replies := (collect_replies Workflow).
Local Abbreviation show_final := (show_final Workflow).

(** With a line for each request on the standard input, the questions are
    asked and answered in turn and the stripped answers stored. *)
Lemma collect_replies_run requests : forall lines rest d (w : World Workflow),
  stdin w = lines ++ rest ->
  length lines = length requests ->
  collect_replies requests d w
  = Ok (answered requests lines d,
        {| workflow := workflow w; stdin := rest;
           actions := actions w ++ dialogue requests lines |}).
Proof.
  induction requests as [|[request_id request_data] requests IH];
    intros [|line lines] rest d w Hin Hlen; try discriminate.
  - cbn [collect_replies answered dialogue]. unfold ret. rewrite app_nil_r.
    cbn in Hin. rewrite <- Hin. now destruct w.
  - cbn [collect_replies answered dialogue].
    unfold bind, console_print, console_print_end, input, act.
    cbn [workflow stdin actions]. rewrite Hin. cbn [app].
    erewrite IH; [|cbn [stdin]; reflexivity|cbn in Hlen; lia].
    cbn [workflow stdin actions question]. do 3 f_equal.
    rewrite <- !(assoc_L (++)). reflexivity.
Qed.

(** With too few lines the round ends in [EOFError]. *)
Lemma collect_replies_eof requests : forall d (w : World Workflow),
  (length (stdin w) < length requests)%nat ->
  collect_replies requests d w = Raise EOFError.
Proof.
  induction requests as [|[request_id request_data] requests IH]; intros d w Hlt.
  - cbn in Hlt. lia.
  - cbn [collect_replies].
    unfold bind, console_print, console_print_end, input, act.
    cbn [workflow stdin actions].
    destruct (stdin w) as [|line rest] eqn:Hin; [reflexivity|].
    apply IH. cbn [stdin]. cbn in Hlt. lia.
Qed.

Lemma open_stream_run pending (w : World Workflow) :
  open_stream pending w
  = Ok ((stream_result pending (workflow w)).1,
        {| workflow := (stream_result pending (workflow w)).2;
           stdin := stdin w;
           actions := actions w ++ [stream_call pending] |}).
Proof.
  unfold open_stream, stream_result, stream_call.
  destruct pending as [[|entry more]|];
    unfold call_run_stream, call_send_responses_streaming;
    match goal with |- context [let '(_, _) := ?r in _] => destruct r end;
    reflexivity.
Qed.

Lemma loop_body_cases v (w : World Workflow) :
  let result := stream_result (pending_responses v) (workflow w) in
  let drained := drain (completed v) (final_output v) result.1 in
  let w1 := {| workflow := result.2; stdin := stdin w;
               actions := actions w ++ [stream_call (pending_responses v)] |} in
  loop_body v w
  = match pending_requests drained, drained_completed drained with
    | _ :: _, false =>
        match collect_replies (pending_requests drained) [] w1 with
        | Ok (responses, w') =>
            Ok ({| pending_responses := Some responses;
                   completed := drained_completed drained;
                   final_output := drained_final_output drained |}, w')
        | Raise e => Raise e
        end
    | _, done =>
        Ok ({| pending_responses := None;
               completed := if negb done then true else done;
               final_output := drained_final_output drained |}, w1)
    end.
Proof.
  cbv zeta. unfold loop_body, bind. rewrite open_stream_run.
  destruct (pending_requests _) as [|request requests];
    destruct (drained_completed _); reflexivity.
Qed.

(** While the loop runs no final output was recorded. *)
Lemma running_has_no_output v (w : World Workflow) :
  reachable v w -> completed v = false -> final_output v = None.
Proof.
  induction 1 as [w|v w v' w' Hreach IH Hrunning Hbody]; [reflexivity|].
  intros Hrunning'. specialize (IH Hrunning).
  rewrite loop_body_cases in Hbody. cbv zeta in Hbody.
  destruct (pending_requests _) as [|request requests] eqn:Hreq;
    destruct (drained_completed _) eqn:Hdone.
  - injection Hbody as <- <-. discriminate.
  - injection Hbody as <- <-. discriminate.
  - injection Hbody as <- <-. discriminate.
  - destruct (collect_replies _ _ _) as [[responses w'']|e]; [|discriminate].
    injection Hbody as <- <-. cbn [final_output].
    rewrite (drain_running _ _ _ Hdone). exact IH.
Qed.

(** C6: in a phase of the loop whose stream brings no human-review request
    and no [WorkflowOutputEvent], the body sets [completed], reads nothing
    and prints nothing; the loop then stops with no final output recorded,
    and the final display prints nothing. *)
Theorem empty_phase_completes_silently v (w : World Workflow) events wf
    (Hreach : reachable v w)
    (Hrunning : completed v = false)
    (Hstream : stream_result (pending_responses v) (workflow w) = (events, wf))
    (Hnoreq : pending_requests (drain (completed v) (final_output v) events) = [])
    (Hnoout : forallb (fun e => negb (is_output_event e)) events = true) :
  exists v' w',
    loop_body v w = Ok (v', w')
    /\ completed v' = true
    /\ final_output v' = None
    /\ pending_responses v' = None
    /\ w' = {| workflow := wf; stdin := stdin w;
               actions := actions w ++ [stream_call (pending_responses v)] |}
    /\ (forall fuel, while_not_completed (S fuel) v w = Some (Ok (v', w')))
    /\ show_final (final_output v') w' = Ok (tt, w').
Proof.
  pose proof (loop_body_cases v w) as Hbody. cbv zeta in Hbody.
  rewrite Hstream in Hbody. cbn [fst snd] in Hbody. rewrite Hnoreq in Hbody.
  destruct (drain_no_output events (completed v) (final_output v) Hnoout)
    as [Hdone Hfinal].
  rewrite Hdone, Hfinal, Hrunning in Hbody. cbn [negb] in Hbody.
  rewrite (running_has_no_output v w Hreach Hrunning) in Hbody.
  eexists. eexists. split; [exact Hbody|].
  cbn [completed final_output pending_responses].
  repeat split.
  intros fuel. cbn [while_not_completed]. rewrite Hrunning, Hbody.
  destruct fuel; reflexivity.
Qed.

(** The log of a phase: the engine is called once, at its start, and after
    that the loop only prints and reads; what it keeps when it goes on. *)
Lemma loop_phase_log v (w : World Workflow) events wf
    (Hrunning : completed v = false)
    (Hstream : stream_result (pending_responses v) (workflow w) = (events, wf))
    (Hlines : (length (pending_requests (drain (completed v) (final_output v) events))
               <= length (stdin w))%nat) :
  let requests := pending_requests (drain (completed v) (final_output v) events) in
  exists v' w' log,
    loop_body v w = Ok (v', w')
    /\ actions w' = actions w ++ stream_call (pending_responses v) :: log
    /\ forallb (fun a => negb (is_engine_call a)) log = true
    /\ (completed v' = false ->
          exists lines batch,
            stdin w = lines ++ stdin w'
            /\ length lines = length requests
            /\ List.filter is_read log = map ReadLine lines
            /\ batch = answered requests lines []
            /\ pending_responses v' = Some batch
            /\ (forall request_id,
                  request_id ∈ keys batch <-> request_id ∈ map fst requests)
            /\ NoDup (keys batch)
            /\ stream_call (pending_responses v') = SendResponsesStreaming batch)
    /\ (completed v' = true ->
          log = [] /\ stdin w' = stdin w /\ pending_responses v' = None).
Proof.
  intros requests.
  pose proof (loop_body_cases v w) as Hbody. cbv zeta in Hbody.
  rewrite Hstream in Hbody. cbn [fst snd] in Hbody. fold requests in Hbody.
  destruct requests as [|request more] eqn:Hreq;
    [|destruct (drained_completed _) eqn:Hdone].
  - eexists. eexists. exists []. split; [exact Hbody|].
    cbn [actions stdin completed pending_responses forallb].
    split; [reflexivity|]. split; [reflexivity|]. split; [|auto].
    now destruct (drained_completed _).
  - eexists. eexists. exists []. split; [exact Hbody|].
    cbn [actions stdin completed pending_responses forallb negb].
    split; [reflexivity|]. split; [reflexivity|]. split; [discriminate|auto].
  - set (lines := take (length (request :: more)) (stdin w)).
    set (rest := drop (length (request :: more)) (stdin w)).
    assert (Hsplit : stdin w = lines ++ rest) by (symmetry; apply take_drop).
    assert (Hlen : length lines = length (request :: more)).
    { unfold lines. rewrite length_take. fold requests in Hlines.
      rewrite Hreq in Hlines. lia. }
    erewrite collect_replies_run in Hbody; [|cbn [stdin]; exact Hsplit|exact Hlen].
    eexists. eexists. exists (dialogue (request :: more) lines).
    split; [exact Hbody|]. cbn [actions stdin completed pending_responses].
    split; [now rewrite <- (assoc_L (++))|].
    split; [apply dialogue_no_engine_call|]. split; [|discriminate].
    intros _. exists lines, (answered (request :: more) lines []).
    split; [exact Hsplit|]. split; [exact Hlen|].
    split; [apply dialogue_reads, Hlen|]. split; [reflexivity|].
    split; [reflexivity|]. split.
    + intros request_id. rewrite answered_keys by exact Hlen.
      cbn [keys map]. rewrite elem_of_nil. tauto.
    + split; [apply answered_NoDup; cbn; apply NoDup_nil_2|].
      pose proof (answered_nonempty request more lines [] Hlen) as Hne.
      destruct (answered (request :: more) lines []); [contradiction|reflexivity].
Qed.

End DriverProperties.

(** C6 on the engine that idles at once: [main] makes its one engine call,
    reads nothing and ends with no final output. *)
Lemma empty_phase_completes_silently_witness :
  main unit idle_run_stream idle_send_responses_streaming 1 (console tt ["approve"])
  = Some (Ok (None,
              {| workflow := tt; stdin := ["approve"];
                 actions := [ ConsolePrint (nl +:+ "初期タスク: " +:+ initial_task) nl;
                              RunStream initial_task ] |}))
  /\ exists v' w',
       loop_body unit idle_run_stream idle_send_responses_streaming
         initial_locals (console tt ["approve"]) = Ok (v', w')
       /\ completed v' = true
       /\ final_output v' = None
       /\ stdin w' = ["approve"].
Proof.
  split; [reflexivity|].
  destruct (empty_phase_completes_silently idle_run_stream idle_send_responses_streaming
              initial_locals (console tt ["approve"])
              [WorkflowStatusEvent IN_PROGRESS; WorkflowStatusEvent IDLE] tt
              (reachable_start _ _ _ _) eq_refl eq_refl eq_refl eq_refl)
    as (v' & w' & Hbody & Hdone & Hfinal & _ & Hw & _).
  exists v', w'. split; [exact Hbody|]. split; [exact Hdone|].
  split; [exact Hfinal|]. rewrite Hw. reflexivity.
Defined.

(** ** The blank reply *)

(** C5 as stated fails on a reply of one space: the reply is blank, the
    handler takes the revision path, and the instruction part of the prompt
    it sends is that space, so the prompt is not the one with an empty
    instruction. *)
Lemma blank_reply_kept_in_prompt :
  strip " " = ""
  /\ exists ctx',
       handle_human_decision coordinator (human_says " ") reviewed_ctx = Ok (tt, ctx')
       /\ sent (new_effects reviewed_ctx ctx')
          = [(AgentExecutorRequest
                [ {| role := USER;
                     text := revision_head (VStr "Drive Bold.") (VStr "too short") +:+ " " |} ]
                true, "writer")]
       /\ revision_head (VStr "Drive Bold.") (VStr "too short") +:+ " "
          <> revision_head (VStr "Drive Bold.") (VStr "too short") +:+ "".
Proof.
  split; [reflexivity|].
  destruct (other_takes_revision_path coordinator (human_says " ") reviewed_ctx)
    as (ctx' & Hrun & _ & Hsent & _); [vm_compute; discriminate|].
  exists ctx'. split; [exact Hrun|]. split; [exact Hsent|].
  intros E. apply (inj (String.app _)) in E. discriminate.
Qed.

(** C5, amended: a reply that is empty or only whitespace does not make the
    handler raise and takes the revision path; the instruction part of the
    prompt is the reply as the handler received it.  It is the empty string
    for an empty reply, and the loop of [main] stores the empty string for
    every console line that is empty or only whitespace. *)
Theorem blank_reply_revises_with_reply_verbatim self feedback ctx reply
    (Hreply : data feedback = Some reply)
    (Hblank : strip reply = "") :
  let draft := get (store ctx) "current_draft" (VStr "") in
  let critique := get (store ctx) "reviewer_feedback" (VStr "") in
  takes_revision_path self feedback ctx
  /\ revision_request ctx feedback
     = AgentExecutorRequest
         [ {| role := USER; text := revision_head draft critique +:+ reply |} ] true
  /\ (reply = "" ->
      revision_request ctx feedback
      = AgentExecutorRequest
          [ {| role := USER; text := revision_head draft critique +:+ "" |} ] true)
  /\ (forall Workflow (w : World Workflow) request_id request_data line rest,
        stdin w = line :: rest ->
        strip line = "" ->
        exists w',
          collect_replies Workflow [(request_id, request_data)] [] w
          = Ok ([(request_id, "")], w')).
Proof.
  intros draft critique.
  assert (Hr : normalized feedback <> "approve").
  { unfold normalized. rewrite Hreply. cbn [or_empty]. rewrite Hblank. discriminate. }
  split; [apply other_takes_revision_path, Hr|].
  assert (Hreq : revision_request ctx feedback
                 = AgentExecutorRequest
                     [ {| role := USER; text := revision_head draft critique +:+ reply |} ]
                     true).
  { unfold revision_request. now rewrite Hreply. }
  split; [exact Hreq|]. split; [intros <-; exact Hreq|].
  intros Workflow w request_id request_data line rest Hin Hline.
  eexists.
  rewrite (collect_replies_run [(request_id, request_data)] [line] rest [] w Hin eq_refl).
  cbn [answered dict_set]. rewrite Hline. reflexivity.
Qed.

(** C5, amended, on a reply of two spaces. *)
Lemma blank_reply_revises_with_reply_verbatim_witness :
  strip "  " = ""
  /\ takes_revision_path coordinator (human_says "  ") reviewed_ctx
  /\ revision_request reviewed_ctx (human_says "  ")
     = AgentExecutorRequest
         [ {| role := USER;
              text := revision_head (VStr "Drive Bold.") (VStr "too short") +:+ "  " |} ]
         true.
Proof.
  split; [reflexivity|].
  destruct (blank_reply_revises_with_reply_verbatim coordinator (human_says "  ")
              reviewed_ctx "  " eq_refl eq_refl)
    as (Hpath & Hreq & _).
  split; [exact Hpath|exact Hreq].
Defined.

(** * Checks on sample inputs *)

Example strip_lower_example :
  lower (strip ("  ApProVe " +:+ nl)) = "approve".
Proof. reflexivity. Qed.

Example int_examples :
  PyInt.int (VStr " 1_000 ") = Ok 1000
  /\ PyInt.int (VStr "-12") = Ok (-12)
  /\ PyInt.int (VStr "1__0") = Raise ValueError
  /\ PyInt.int (VStr "") = Raise ValueError
  /\ PyInt.int (VStr (String "028"%char "5")) = Raise ValueError
  /\ format (VInt (-12)) = "-12".
Proof. repeat split; reflexivity. Qed.

(** U+3000 after the word and U+00A0 before it are stripped like a space. *)
Example strip_unicode_example :
  let nbsp := String "194"%char (String "160"%char "") in
  let ideographic := String "227"%char (String "128"%char (String "128"%char "")) in
  lower (strip (nbsp +:+ "Approve" +:+ ideographic)) = "approve"
  /\ strip (ideographic +:+ nbsp +:+ nl) = "".
Proof. split; reflexivity. Qed.

(** The whole of [main] on the engine with two requests. *)
Example main_two_requests :
  match main nat two_requests_run_stream two_requests_send_responses_streaming 2
          (console 0%nat [" add a pun "; "APPROVE"; "later"]) with
  | Some (Ok (final, w)) =>
      Some (final, stdin w, List.filter is_engine_call (actions w))
  | _ => None
  end
  = Some (Some (VStr "Drive Bold."), ["later"],
          [ RunStream initial_task;
            SendResponsesStreaming [("r1", "add a pun"); ("r2", "APPROVE")] ]).
Proof. vm_compute. reflexivity. Qed.


(** * Further properties of the handlers *)

(** ** What a relay does to the store *)

(** X1: a relay replaces the state: afterwards the store holds the three keys
    iteration, current_draft and reviewer_feedback and no other, whatever it
    held before. *)
Theorem relay_replaces_state self response ctx n (Hn : iteration_of ctx = Ok n) :
  exists ctx',
    handle_reviewer_response self response ctx = Ok (tt, ctx')
    /\ dom (store ctx') = ({[ "iteration"; "current_draft"; "reviewer_feedback" ]} : gset string)
    /\ (forall key,
          key <> "iteration" -> key <> "current_draft" -> key <> "reviewer_feedback" ->
          store ctx' !! key = None).
Proof.
  eexists. split; [apply (handle_reviewer_response_run self response ctx n Hn)|].
  cbv zeta. unfold store. cbn [ctx_state or_empty_dict]. split.
  - rewrite !dom_insert_L, dom_singleton_L. set_solver.
  - intros key H1 H2 H3.
    rewrite !lookup_insert_ne by congruence. apply lookup_singleton_ne. congruence.
Qed.

(** X1 on a state with a key of another kind: the key is gone after the relay. *)
Lemma relay_replaces_state_witness :
  let ctx := {| ctx_state := Some {[ "iteration" := VInt 4; "note" := VStr "kept?" ]};
                ctx_effects := [] |} in
  iteration_of ctx = Ok 4
  /\ store ctx !! "note" = Some (VStr "kept?")
  /\ exists ctx',
       handle_reviewer_response coordinator (agent_says "too short") ctx = Ok (tt, ctx')
       /\ store ctx' !! "note" = None.
Proof.
  intros ctx. split; [reflexivity|]. split; [reflexivity|].
  destruct (relay_replaces_state coordinator (agent_says "too short") ctx 4 eq_refl)
    as (ctx' & Hrun & _ & Hgone).
  exists ctx'. split; [exact Hrun|]. apply Hgone; discriminate.
Defined.

(** X2: a relay never changes the draft: the store reads the same draft after
    it as before, and a draft that was missing is written as the empty
    string. *)
Theorem relay_keeps_draft self response ctx n (Hn : iteration_of ctx = Ok n) :
  exists ctx',
    handle_reviewer_response self response ctx = Ok (tt, ctx')
    /\ store ctx' !! "current_draft" = Some (get (store ctx) "current_draft" (VStr ""))
    /\ get (store ctx') "current_draft" (VStr "") = get (store ctx) "current_draft" (VStr "")
    /\ (store ctx !! "current_draft" = None ->
        store ctx' !! "current_draft" = Some (VStr "")).
Proof.
  eexists. split; [apply (handle_reviewer_response_run self response ctx n Hn)|].
  cbv zeta.
  remember (store ctx) as st eqn:Est.
  unfold store. cbn [ctx_state or_empty_dict].
  match goal with
  | |- ?m !! _ = _ /\ _ =>
      assert (Hd : m !! "current_draft" = Some (get st "current_draft" (VStr "")))
        by (rewrite lookup_insert_ne by discriminate; apply lookup_insert_eq)
  end.
  split; [exact Hd|]. split.
  - now apply get_lookup.
  - intros Hnone. rewrite Hd. now rewrite (get_missing _ _ _ Hnone).
Qed.

(** X2 on a context that was never written. *)
Lemma relay_keeps_draft_witness :
  iteration_of fresh_ctx = Ok 0
  /\ exists ctx',
       handle_reviewer_response coordinator (agent_says "too short") fresh_ctx
       = Ok (tt, ctx')
       /\ store ctx' !! "current_draft" = Some (VStr "").
Proof.
  split; [reflexivity|].
  destruct (relay_keeps_draft coordinator (agent_says "too short") fresh_ctx 0 eq_refl)
    as (ctx' & Hrun & _ & _ & Hempty).
  exists ctx'. split; [exact Hrun|]. apply Hempty. reflexivity.
Defined.

(** ** What a decision leaves alone *)

(** X4: a human decision never raises and never writes the state, whatever
    the reply, a missing one included; it does exactly one thing: it yields
    one output or it sends one message. *)
Theorem decision_leaves_state self feedback ctx :
  exists ctx',
    handle_human_decision self feedback ctx = Ok (tt, ctx')
    /\ ctx_state ctx' = ctx_state ctx
    /\ state_writes (new_effects ctx ctx') = []
    /\ (length (outputs (new_effects ctx ctx')) + length (sent (new_effects ctx ctx')) = 1)%nat.
Proof.
  destruct (decide (normalized feedback = "approve")) as [Ha|Hr].
  - eexists. split; [apply handle_human_decision_approve, Ha|].
    erewrite new_effects_app by (cbn [ctx_effects]; reflexivity). repeat split.
  - eexists. split; [apply handle_human_decision_revise, Hr|].
    erewrite new_effects_app by (cbn [ctx_effects]; reflexivity). repeat split.
Qed.

(** X5: a decision whose reply is missing is a revision, and the instruction
    part of the prompt sent to the writer is the word None. *)
Theorem missing_reply_is_revision self feedback ctx (Hnone : data feedback = None) :
  takes_revision_path self feedback ctx
  /\ revision_request ctx feedback
     = AgentExecutorRequest
         [ {| role := USER;
              text := revision_head (get (store ctx) "current_draft" (VStr ""))
                                    (get (store ctx) "reviewer_feedback" (VStr ""))
                      +:+ "None" |} ] true.
Proof.
  split.
  - apply other_takes_revision_path. unfold normalized. rewrite Hnone. discriminate.
  - unfold revision_request. now rewrite Hnone.
Qed.

(** X5 on the reviewed sample. *)
Lemma missing_reply_is_revision_witness :
  takes_revision_path coordinator
    {| original_request := sample_request; data := None |} reviewed_ctx.
Proof.
  exact (proj1 (missing_reply_is_revision coordinator
                  {| original_request := sample_request; data := None |}
                  reviewed_ctx eq_refl)).
Defined.

(** ** Whitespace and letter case in a reply *)

Lemma app_cons c (s t : string) : String c s +:+ t = String c (s +:+ t).
Proof. reflexivity. Qed.

Lemma app_empty_r (s : string) : s +:+ "" = s.
Proof. induction s as [|c s IH]; [reflexivity|]. now rewrite app_cons, IH. Qed.

Lemma rev_app_spec s : forall t, String.rev_app s t = String.rev s +:+ t.
Proof.
  induction s as [|c s IH]; intros t; [reflexivity|].
  unfold String.rev. cbn [String.rev_app]. rewrite (IH (String c t)), (IH (String c "")).
  now rewrite string_app_assoc.
Qed.

Lemma rev_cons c s : String.rev (String c s) = String.rev s +:+ String c "".
Proof. unfold String.rev at 1. cbn [String.rev_app]. apply rev_app_spec. Qed.

Lemma rev_app_distr (s t : string) : String.rev (s +:+ t) = String.rev t +:+ String.rev s.
Proof.
  induction s as [|c s IH]; [now rewrite app_empty_r|].
  now rewrite app_cons, !rev_cons, IH, string_app_assoc.
Qed.

Lemma rev_involutive s : String.rev (String.rev s) = s.
Proof.
  induction s as [|c s IH]; [reflexivity|].
  now rewrite rev_cons, rev_app_distr, IH.
Qed.

Lemma all_space_app s t : all_space (s +:+ t) = all_space s && all_space t.
Proof.
  induction s as [|c s IH]; [reflexivity|].
  rewrite app_cons. cbn [all_space]. rewrite IH. now rewrite andb_assoc.
Qed.

Lemma all_space_rev s : all_space (String.rev s) = all_space s.
Proof.
  induction s as [|c s IH]; [reflexivity|].
  rewrite rev_cons, all_space_app, IH. cbn [all_space].
  rewrite andb_true_r. apply andb_comm.
Qed.

Lemma length_app_str (s t : string) :
  String.length (s +:+ t) = (String.length s + String.length t)%nat.
Proof. induction s as [|c s IH]; [reflexivity|]. rewrite app_cons. cbn. now rewrite IH. Qed.

(** One step of [strip_left]: nothing is removed, or a character at the
    front is and the rest is stripped. *)
Lemma strip_left_cases b s :
  strip_left b s = s
  \/ exists pre rest, s = pre +:+ rest /\ pre <> "" /\ strip_left b s = strip_left b rest.
Proof.
  destruct s as [|c1 s1]; [now left|]. cbn [strip_left].
  destruct (isspace_ascii c1).
  { right. exists (String c1 ""), s1. repeat split. discriminate. }
  destruct s1 as [|c2 s2]; [now left|].
  destruct (if b then isspace_2 c2 c1 else isspace_2 c1 c2).
  { right. exists (String c1 (String c2 "")), s2. repeat split. discriminate. }
  destruct s2 as [|c3 s3]; [now left|].
  destruct (if b then isspace_3 c3 c2 c1 else isspace_3 c1 c2 c3); [|now left].
  right. exists (String c1 (String c2 (String c3 ""))), s3. repeat split. discriminate.
Qed.

(** What [strip_left] returns is an end of its argument. *)
Lemma strip_left_suffix b s : exists pre, s = pre +:+ strip_left b s.
Proof.
  remember (String.length s) as n eqn:Hn. revert s Hn.
  induction n as [n IH] using lt_wf_ind. intros s Hn.
  destruct (strip_left_cases b s) as [->|(pre & rest & Hs & Hpre & Hstep)]; [now exists ""|].
  destruct (IH (String.length rest)) with (s := rest) as (pre' & Hrest); [|reflexivity|].
  - rewrite Hn, Hs, length_app_str. destruct pre; [congruence|cbn; lia].
  - exists (pre +:+ pre'). rewrite Hstep, string_app_assoc, <- Hrest. exact Hs.
Qed.

Lemma strip_left_idempotent b s : strip_left b (strip_left b s) = strip_left b s.
Proof.
  remember (String.length s) as n eqn:Hn. revert s Hn.
  induction n as [n IH] using lt_wf_ind. intros s Hn.
  destruct (strip_left_cases b s) as [Hfix|(pre & rest & Hs & Hpre & Hstep)].
  - now rewrite !Hfix.
  - rewrite Hstep. apply (IH (String.length rest)); [|reflexivity].
    rewrite Hn, Hs, length_app_str. destruct pre; [congruence|cbn; lia].
Qed.

Lemma strip_left_not_longer b s pre : pre <> "" -> strip_left b s <> pre +:+ s.
Proof.
  intros Hpre E. destruct (strip_left_suffix b s) as (front & Hs).
  apply (f_equal String.length) in Hs. rewrite E, !length_app_str in Hs.
  destruct pre; [congruence|cbn in Hs; lia].
Qed.

(** A string that [strip_left] leaves alone has only such beginnings. *)
Lemma strip_left_fixed_prefix b u x :
  strip_left b (u +:+ x) = u +:+ x -> strip_left b u = u.
Proof.
  destruct u as [|c1 [|c2 [|c3 u3]]]; [reflexivity| | |];
    rewrite ?app_cons; cbn [strip_left]; intros H.
  - destruct (isspace_ascii c1); [|reflexivity].
    destruct (strip_left_not_longer b x (String c1 "")); [discriminate|exact H].
  - change ("" +:+ x) with x in H. destruct (isspace_ascii c1).
    { destruct (strip_left_not_longer b (String c2 x) (String c1 "")); [discriminate|exact H]. }
    destruct (if b then isspace_2 c2 c1 else isspace_2 c1 c2); [|reflexivity].
    destruct (strip_left_not_longer b x (String c1 (String c2 ""))); [discriminate|exact H].
  - destruct (isspace_ascii c1).
    { destruct (strip_left_not_longer b (String c2 (String c3 (u3 +:+ x))) (String c1 ""));
        [discriminate|exact H]. }
    destruct (if b then isspace_2 c2 c1 else isspace_2 c1 c2).
    { destruct (strip_left_not_longer b (String c3 (u3 +:+ x)) (String c1 (String c2 "")));
        [discriminate|exact H]. }
    destruct (if b then isspace_3 c3 c2 c1 else isspace_3 c1 c2 c3); [|reflexivity].
    destruct (strip_left_not_longer b (u3 +:+ x) (String c1 (String c2 (String c3 ""))));
      [discriminate|exact H].
Qed.

(** Stripping twice is stripping once. *)
Lemma strip_idempotent s : strip (strip s) = strip s.
Proof.
  unfold strip, lstrip, rstrip.
  set (t := strip_left false s).
  destruct (strip_left_suffix true (String.rev t)) as (back & Hback).
  assert (Ht : t = String.rev (strip_left true (String.rev t)) +:+ String.rev back).
  { rewrite <- rev_app_distr, <- Hback. now rewrite rev_involutive. }
  assert (Hfix : strip_left false (String.rev (strip_left true (String.rev t)))
                 = String.rev (strip_left true (String.rev t))).
  { apply (strip_left_fixed_prefix false _ (String.rev back)). rewrite <- Ht.
    apply strip_left_idempotent. }
  rewrite Hfix, rev_involutive. now rewrite strip_left_idempotent.
Qed.

(** ASCII whitespace at the front is removed, a character of the ASCII range
    that is no whitespace stops the stripping. *)
Lemma strip_left_ascii b pre s :
  all_space pre = true -> strip_left b (pre +:+ s) = strip_left b s.
Proof.
  induction pre as [|c pre IH]; [reflexivity|].
  cbn [all_space]. intros [Hc Hpre]%andb_true_iff.
  rewrite app_cons. cbn [strip_left]. rewrite Hc. now apply IH.
Qed.

Ltac decide_codes c :=
  repeat match goal with
         | |- context [code c =? ?k] => destruct (Z.eqb_spec (code c) k); [lia|]
         | |- context [?k <=? code c] => destruct (Z.leb_spec k (code c)); [lia|]
         end.

Lemma strip_left_stop b c s :
  isspace_ascii c = false -> code c < 128 -> strip_left b (String c s) = String c s.
Proof.
  intros Hc Hlow. cbn [strip_left]. rewrite Hc.
  destruct s as [|c2 s2]; [reflexivity|].
  assert (H2 : (if b then isspace_2 c2 c else isspace_2 c c2) = false).
  { unfold isspace_2. destruct b; decide_codes c; cbn; rewrite ?andb_false_r; reflexivity. }
  rewrite H2. destruct s2 as [|c3 s3]; [reflexivity|].
  assert (H3 : (if b then isspace_3 c3 c2 c else isspace_3 c c2 c3) = false).
  { unfold isspace_3. destruct b; decide_codes c; cbn; rewrite ?andb_false_r; reflexivity. }
  now rewrite H3.
Qed.

(** A word that begins and ends with such characters comes out of [strip]
    as it is, whatever ASCII whitespace stands around it. *)
Lemma strip_between pre word post c w d r :
  word = String c w -> String.rev word = String d r ->
  isspace_ascii c = false -> code c < 128 ->
  isspace_ascii d = false -> code d < 128 ->
  all_space pre = true -> all_space post = true ->
  strip (pre +:+ word +:+ post) = word.
Proof.
  intros Hword Hrev Hc Hclow Hd Hdlow Hpre Hpost. unfold strip, lstrip, rstrip.
  rewrite (strip_left_ascii false pre) by exact Hpre.
  rewrite Hword at 1. rewrite app_cons, (strip_left_stop false c) by assumption.
  rewrite <- app_cons, <- Hword, rev_app_distr.
  rewrite (strip_left_ascii true) by (now rewrite all_space_rev).
  rewrite Hrev, (strip_left_stop true d) by assumption.
  rewrite <- Hrev. apply rev_involutive.
Qed.

(** A byte that [lower_char] takes to a small ASCII letter is an ASCII
    letter, and no whitespace. *)
Lemma letter_image c l :
  lower_char c = l ->
  (97 <=? code l) && (code l <=? 122) = true ->
  isspace_ascii c = false /\ code c < 128.
Proof.
  intros <-. destruct c as [[] [] [] [] [] [] [] []]; intros H; vm_compute in H;
    try discriminate H; split; reflexivity.
Qed.

(** X6: the word approve in any ASCII letter case, with any ASCII whitespace
    before and after it, is an approval: the handler yields the draft of the
    store and sends nothing. *)
Theorem padded_approve_any_case_approves self original word pre post ctx
    (Hword : lower word = "approve")
    (Hpre : all_space pre = true)
    (Hpost : all_space post = true) :
  takes_approval_path self
    {| original_request := original; data := Some (pre +:+ word +:+ post) |} ctx.
Proof.
  apply approve_takes_approval_path. unfold normalized. cbn [data or_empty].
  do 8 (destruct word as [|? word]; try discriminate Hword).
  cbn [lower] in Hword. injection Hword as H1 H2 H3 H4 H5 H6 H7.
  destruct (letter_image _ _ H1 eq_refl) as [Hfirst Hfirst'].
  destruct (letter_image _ _ H7 eq_refl) as [Hlast Hlast'].
  erewrite strip_between; [|reflexivity|reflexivity|eassumption..].
  cbn [lower]. now rewrite H1, H2, H3, H4, H5, H6, H7.
Qed.

(** X6 on a reply with a tab before and a line end after mixed-case letters. *)
Lemma padded_approve_any_case_approves_witness :
  takes_approval_path coordinator
    {| original_request := sample_request;
       data := Some (String "009"%char " " +:+ "aPPRove" +:+ nl) |} reviewed_ctx.
Proof.
  exact (padded_approve_any_case_approves coordinator sample_request "aPPRove"
           (String "009"%char " ") nl reviewed_ctx eq_refl eq_refl eq_refl).
Defined.

(** X7: the strip that [main] applies to a console line before it submits
    it never changes the decision: the handler takes the approval path on
    the stripped line exactly when it takes it on the line as typed, and
    likewise the revision path. *)
Theorem driver_strip_keeps_decision self original line ctx :
  let typed := {| original_request := original; data := Some line |} in
  let submitted := {| original_request := original; data := Some (strip line) |} in
  normalized submitted = normalized typed
  /\ (takes_approval_path self submitted ctx <-> takes_approval_path self typed ctx)
  /\ (takes_revision_path self submitted ctx <-> takes_revision_path self typed ctx).
Proof.
  intros typed submitted.
  assert (Hsame : normalized submitted = normalized typed).
  { unfold normalized, submitted, typed. cbn [data or_empty]. now rewrite strip_idempotent. }
  split; [exact Hsame|].
  assert (Happ : forall fb, takes_approval_path self fb ctx <-> normalized fb = "approve").
  { intros fb. split; [|apply approve_takes_approval_path].
    intros Hp. destruct (decide (normalized fb = "approve")) as [Ha|Hr]; [exact Ha|].
    destruct (paths_exclusive self fb ctx Hp (other_takes_revision_path self fb ctx Hr)). }
  assert (Hrev : forall fb, takes_revision_path self fb ctx <-> normalized fb <> "approve").
  { intros fb. split; [|apply other_takes_revision_path].
    intros Hp Ha.
    exact (paths_exclusive self fb ctx (approve_takes_approval_path self fb ctx Ha) Hp). }
  split.
  - now rewrite !Happ, Hsame.
  - now rewrite !Hrev, Hsame.
Qed.

(** ** Captures and whole runs *)

(** What [capture_draft] does, effect by effect. *)
Lemma capture_draft_eq self response ctx :
  let draft := or_empty (agent_run_response_text response) in
  capture_draft self response ctx
  = Ok (tt, {| ctx_state := Some (<[ "current_draft" := VStr draft ]> (store ctx));
               ctx_effects :=
                 ctx_effects ctx ++
                 [ Print (nl +:+ rule);
                   Print "Writerの下書き";
                   Print rule;
                   Print draft;
                   SetState (<[ "current_draft" := VStr draft ]> (store ctx));
                   SendMessage (review_request draft) (_reviewer_id self) ] |}).
Proof.
  cbv zeta. run_handler. rewrite <- !(assoc_L (++)). reflexivity.
Qed.

(** X8: of two captures in a row the second wins: the state is the one the
    second capture alone would have left, and each capture has sent its own
    review request to the reviewer, in order. *)
Theorem capture_twice_keeps_last self first second ctx :
  exists ctx1 ctx2 ctx2',
    capture_draft self first ctx = Ok (tt, ctx1)
    /\ capture_draft self second ctx1 = Ok (tt, ctx2)
    /\ capture_draft self second ctx = Ok (tt, ctx2')
    /\ ctx_state ctx2 = ctx_state ctx2'
    /\ sent (new_effects ctx ctx2)
       = [ (review_request (or_empty (agent_run_response_text first)), _reviewer_id self);
           (review_request (or_empty (agent_run_response_text second)), _reviewer_id self) ].
Proof.
  eexists. eexists. eexists.
  split; [apply capture_draft_eq|]. split; [apply capture_draft_eq|].
  split; [apply capture_draft_eq|]. cbv zeta. split.
  - cbn [ctx_state]. f_equal. unfold store at 1. cbn [ctx_state or_empty_dict].
    apply insert_insert_eq.
  - erewrite new_effects_app
      by (cbn [ctx_effects]; rewrite <- (assoc_L (++)); reflexivity).
    reflexivity.
Qed.

Lemma outputs_app a b : outputs (a ++ b) = outputs a ++ outputs b.
Proof. apply omap_app. Qed.

Lemma review_iterations_app a b :
  review_iterations (a ++ b) = review_iterations a ++ review_iterations b.
Proof. apply omap_app. Qed.

(** What one call adds to the coordinator's context, when the counter of the
    coordinator's state reads [n] and its state holds no draft. *)
Lemma handle_spec capture self call run n :
  iteration_of (coordinator_ctx run) = Ok n ->
  get (store (coordinator_ctx run)) "current_draft" (VStr "") = VStr "" ->
  exists run' added,
    handle capture self call run = Ok (tt, run')
    /\ ctx_effects (coordinator_ctx run') = ctx_effects (coordinator_ctx run) ++ added
    /\ iteration_of (coordinator_ctx run') = Ok (if is_relay call then n + 1 else n)
    /\ get (store (coordinator_ctx run')) "current_draft" (VStr "") = VStr ""
    /\ review_iterations added = (if is_relay call then [n + 1] else [])
    /\ outputs added = (if is_approval call then [VStr ""] else []).
Proof.
  intros Hn Hd. destruct call as [response|response|feedback];
    cbn [handle is_relay is_approval]; unfold on_capture, on_coordinator.
  - rewrite capture_draft_eq. cbv zeta. eexists. exists []. split; [reflexivity|].
    cbn [coordinator_ctx]. rewrite app_nil_r. now repeat split.
  - rewrite (handle_reviewer_response_run self response _ n Hn). cbv zeta.
    eexists. eexists. split; [reflexivity|]. cbn [coordinator_ctx ctx_effects].
    split; [reflexivity|]. split; [apply iteration_of_written, lookup_insert_eq|].
    split; [|now split]. rewrite Hd. reflexivity.
  - destruct (String.eqb_spec (normalized feedback) "approve") as [Ha|Hr].
    + rewrite (handle_human_decision_approve self feedback _ Ha).
      eexists. eexists. split; [reflexivity|]. cbn [coordinator_ctx ctx_effects].
      split; [reflexivity|]. split; [exact Hn|]. split; [exact Hd|].
      split; [reflexivity|]. cbn. now rewrite Hd.
    + rewrite (handle_human_decision_revise self feedback _ Hr).
      eexists. eexists. split; [reflexivity|]. cbn [coordinator_ctx ctx_effects].
      split; [reflexivity|]. split; [exact Hn|]. split; [exact Hd|]. now split.
Qed.

(** A run never raises; it adds the number of its relays to the counter of
    the coordinator, numbers its review requests from [n + 1] on, and yields
    the empty string at each approval. *)
Lemma handle_all_spec capture self calls : forall run n,
  iteration_of (coordinator_ctx run) = Ok n ->
  get (store (coordinator_ctx run)) "current_draft" (VStr "") = VStr "" ->
  let relays := Z.of_nat (length (List.filter is_relay calls)) in
  exists run' added,
    handle_all capture self calls run = Ok (tt, run')
    /\ ctx_effects (coordinator_ctx run') = ctx_effects (coordinator_ctx run) ++ added
    /\ iteration_of (coordinator_ctx run') = Ok (n + relays)
    /\ review_iterations added = seqZ (n + 1) relays
    /\ outputs added = replicate (length (List.filter is_approval calls)) (VStr "").
Proof.
  induction calls as [|call calls IH]; intros run n Hn Hd; cbv zeta.
  - exists run, []. cbn [handle_all List.filter length]. unfold ret.
    rewrite app_nil_r, Z.add_0_r. repeat split. exact Hn.
  - destruct (handle_spec capture self call run n Hn Hd)
      as (run1 & added1 & Hrun1 & Heff1 & Hit1 & Hd1 & Hrev1 & Hout1).
    destruct (IH run1 _ Hit1 Hd1) as (run2 & added2 & Hrun2 & Heff2 & Hit2 & Hrev2 & Hout2).
    exists run2, (added1 ++ added2).
    split; [cbn [handle_all]; unfold bind; rewrite Hrun1; exact Hrun2|].
    split; [rewrite Heff2, Heff1; now rewrite <- (assoc_L (++))|].
    rewrite review_iterations_app, outputs_app, Hrev1, Hrev2, Hout1, Hout2, Hit2.
    cbn [List.filter]. split; [|split].
    + destruct (is_relay call); cbn [length]; f_equal; lia.
    + destruct (is_relay call); cbn [length]; [|reflexivity].
      rewrite (seqZ_cons (n + 1)) by lia. cbn [app]. do 2 f_equal; lia.
    + destruct (is_approval call); reflexivity.
Qed.

(** X9: a run of any calls on a fresh context never raises, a relay in it
    never meets a counter it cannot read, the counter ends at the number of
    relays, and the review requests sent carry the iterations 1, 2, 3, ... in
    order. *)
Theorem run_counts_relays capture self calls :
  exists run,
    handle_all capture self calls fresh_run = Ok (tt, run)
    /\ iteration_of (coordinator_ctx run)
       = Ok (Z.of_nat (length (List.filter is_relay calls)))
    /\ review_iterations (ctx_effects (coordinator_ctx run))
       = seqZ 1 (Z.of_nat (length (List.filter is_relay calls))).
Proof.
  destruct (handle_all_spec capture self calls fresh_run 0 eq_refl eq_refl)
    as (run & added & Hrun & Heff & Hit & Hrev & _).
  exists run. split; [exact Hrun|]. split; [exact Hit|].
  rewrite Heff. exact Hrev.
Qed.

(** X10: in a run of any calls, each on the state of its own executor, a
    captured draft never reaches the coordinator: every approving decision
    yields the empty string, whatever was captured before it. *)
Theorem run_yields_no_captured_draft capture self calls :
  exists run,
    handle_all capture self calls fresh_run = Ok (tt, run)
    /\ outputs (ctx_effects (coordinator_ctx run))
       = replicate (length (List.filter is_approval calls)) (VStr "").
Proof.
  destruct (handle_all_spec capture self calls fresh_run 0 eq_refl eq_refl)
    as (run & added & Hrun & Heff & _ & _ & Hout).
  exists run. split; [exact Hrun|]. rewrite Heff. exact Hout.
Qed.

(** C1: the draft is captured and reviewed, the human approves, and the
    workflow yields the empty string: "Drive Bold." stays in the state of
    [DraftCapture], and the coordinator yields what its own state holds. *)
Theorem approved_run_yields_empty_not_draft :
  match handle_all draft_capture coordinator
          [ CaptureDraft (agent_says "Drive Bold.");
            ReviewerResponse (agent_says "too short");
            HumanDecision (human_says "approve") ] fresh_run with
  | Ok (_, run) =>
      Some (store (capture_ctx run) !! "current_draft",
            outputs (ctx_effects (coordinator_ctx run)))
  | Raise _ => None
  end
  = Some (Some (VStr "Drive Bold."), [VStr ""]).
Proof. vm_compute. reflexivity. Qed.

(** C3: the draft is captured and reviewed, the human asks for a change,
    and the request that goes back to the writer has an empty draft part:
    its text is the fixed lines around nothing, the critique and the
    instruction. *)
Theorem revision_run_sends_empty_draft :
  match handle_all draft_capture coordinator
          [ CaptureDraft (agent_says "Drive Bold.");
            ReviewerResponse (agent_says "too short");
            HumanDecision (human_says "make it punchier") ] fresh_run with
  | Ok (_, run) =>
      Some (store (capture_ctx run) !! "current_draft",
            last (sent (ctx_effects (coordinator_ctx run))))
  | Raise _ => None
  end
  = Some (Some (VStr "Drive Bold."),
          Some (AgentExecutorRequest
                  [ {| role := USER;
                       text := revision_head (VStr "") (VStr "too short")
                               +:+ "make it punchier" |} ] true,
                "writer")).
Proof. vm_compute. reflexivity. Qed.

(** C4: the draft is captured and its critique relayed, and the request
    sent to the Human Gate carries the critique and iteration 1 with an
    empty draft. *)
Theorem relayed_request_has_empty_draft :
  match handle_all draft_capture coordinator
          [ CaptureDraft (agent_says "Drive Bold.");
            ReviewerResponse (agent_says "too short") ] fresh_run with
  | Ok (_, run) =>
      Some (store (capture_ctx run) !! "current_draft",
            sent (ctx_effects (coordinator_ctx run)))
  | Raise _ => None
  end
  = Some (Some (VStr "Drive Bold."),
          [ (ReviewRequest {| prompt := review_prompt;
                              draft_content := VStr "";
                              reviewer_feedback := "too short";
                              iteration := 1 |},
             "request_info") ]).
Proof. vm_compute. reflexivity. Qed.

(** * Further properties of the driving loop *)

(** ** What the loop keeps of a stream *)

Lemma review_requests_cons event events :
  review_requests (event :: events)
  = match event with
    | RequestInfoEvent request_id (HumanReview request) =>
        (request_id, request) :: review_requests events
    | _ => review_requests events
    end.
Proof. destruct event as [request_id [request|]|output|state|]; reflexivity. Qed.

Lemma last_output_cons event events :
  last_output (event :: events)
  = match event with
    | WorkflowOutputEvent output =>
        match last_output events with
        | Some later => Some later
        | None => Some output
        end
    | _ => last_output events
    end.
Proof.
  destruct event as [request_id payload|output|state|]; try reflexivity.
  unfold last_output.
  match goal with
  | |- context [omap ?f events] =>
      set (outs := omap f events);
      change (omap f (WorkflowOutputEvent output :: events)) with (output :: outs)
  end.
  destruct outs as [|later more]; [reflexivity|]. rewrite last_cons_cons.
  destruct (last (later :: more)) as [found|] eqn:Hlast; [reflexivity|].
  apply last_None in Hlast. discriminate.
Qed.

Lemma fold_on_event_spec events : forall acc,
  pending_requests (fold_left on_event events acc)
  = pending_requests acc ++ review_requests events
  /\ drained_completed (fold_left on_event events acc)
     = drained_completed acc || existsb is_output_event events
  /\ drained_final_output (fold_left on_event events acc)
     = match last_output events with
       | Some output => Some output
       | None => drained_final_output acc
       end.
Proof.
  induction events as [|event events IH]; intros acc.
  - cbn. now rewrite app_nil_r, orb_false_r.
  - cbn [fold_left]. destruct (IH (on_event acc event)) as (Hreq & Hdone & Hfinal).
    rewrite Hreq, Hdone, Hfinal, review_requests_cons, last_output_cons.
    destruct event as [request_id [request|]|output|state|];
      cbn [on_event pending_requests drained_completed drained_final_output
           existsb is_output_event orb];
      try (now repeat split).
    + split; [now rewrite <- (assoc_L (++))|]. now split.
    + split; [reflexivity|]. split; [now rewrite orb_true_r|].
      now destruct (last_output events).
Qed.

Lemma drain_spec was_completed was_final events :
  pending_requests (drain was_completed was_final events) = review_requests events
  /\ drained_completed (drain was_completed was_final events)
     = was_completed || existsb is_output_event events
  /\ drained_final_output (drain was_completed was_final events)
     = match last_output events with
       | Some output => Some output
       | None => was_final
       end.
Proof. unfold drain. apply (fold_on_event_spec events). Qed.

(** X11: after the loop has read a stream, its list of pending requests is
    the human-review requests of the stream in order (requests of another
    class are left out), [completed] is set when the stream held a
    [WorkflowOutputEvent], and the final output is the payload of the last
    such event, the earlier ones being overwritten. *)
Theorem drain_keeps_requests_and_last_output was_completed was_final events :
  pending_requests (drain was_completed was_final events) = review_requests events
  /\ drained_completed (drain was_completed was_final events)
     = was_completed || existsb is_output_event events
  /\ drained_final_output (drain was_completed was_final events)
     = match last_output events with
       | Some output => Some output
       | None => was_final
       end.
Proof. apply drain_spec. Qed.

Lemma last_output_some events :
  existsb is_output_event events = true -> exists output, last_output events = Some output.
Proof.
  induction events as [|event events IH]; [discriminate|].
  rewrite last_output_cons. cbn [existsb].
  destruct event as [request_id payload|output|state|];
    cbn [is_output_event orb]; try exact IH.
  intros _. destruct (last_output events) as [later|]; eauto.
Qed.

(** ** The batch of replies *)

Lemma dict_set_fresh d k v : k ∉ keys d -> dict_set d k v = d ++ [(k, v)].
Proof.
  unfold keys. induction d as [|[k' v'] d IH]; [reflexivity|].
  cbn [map fst dict_set]. intros Hk. apply not_elem_of_cons in Hk as [Hne Hk].
  destruct (String.eqb_spec k k') as [E|_]; [contradiction|].
  cbn [app]. now rewrite IH.
Qed.

Lemma answered_fresh requests : forall lines d,
  length lines = length requests ->
  NoDup (keys d ++ map fst requests) ->
  answered requests lines d = d ++ zip (map fst requests) (map strip lines).
Proof.
  induction requests as [|[request_id request_data] requests IH];
    intros [|line lines] d Hlen Hnodup; try discriminate.
  - cbn. now rewrite app_nil_r.
  - cbn [answered map fst zip zip_with].
    assert (Hfresh : request_id ∉ keys d).
    { apply NoDup_app in Hnodup as (_ & Hdisj & _). intros Hin.
      apply (Hdisj _ Hin). cbn [map fst]. apply elem_of_cons. now left. }
    rewrite (dict_set_fresh d request_id (strip line) Hfresh).
    rewrite IH.
    + now rewrite <- (assoc_L (++)).
    + cbn in Hlen. lia.
    + unfold keys. rewrite map_app. cbn [map fst]. rewrite <- (assoc_L (++)). exact Hnodup.
Qed.

Section DriverRuns.

Context {Workflow : Type}.
Variable run_stream : Workflow -> string -> list Event * Workflow.
Variable send_responses_streaming : Workflow -> dict -> list Event * Workflow.

Local Abbreviation loop_body := (loop_body Workflow run_stream send_responses_streaming).
Local Abbreviation stream_result := (stream_result Workflow run_stream send_responses_streaming).
Local Abbreviation while_not_completed :=
  (while_not_completed Workflow run_stream send_responses_streaming).
Local Abbreviation main := (main Workflow run_stream send_responses_streaming).
Local Abbreviation collect_replies := (collect_replies Workflow).
Local Abbreviation show_final := (show_final Workflow).

(** X15: when the pending requests have distinct ids and the standard input
    holds a line for each, the batch pairs the ids, in the order the requests
    arrived, with the stripped lines, in the order they were read, and the
    lines read are taken off the input. *)
Theorem replies_paired_in_order requests lines rest (w : World Workflow)
    (Hin : stdin w = lines ++ rest)
    (Hlen : length lines = length requests)
    (Hids : NoDup (map fst requests)) :
  exists w',
    collect_replies requests [] w = Ok (zip (map fst requests) (map strip lines), w')
    /\ stdin w' = rest
    /\ workflow w' = workflow w.
Proof.
  eexists. rewrite (collect_replies_run requests lines rest [] w Hin Hlen).
  rewrite answered_fresh by (cbn; assumption). repeat split.
Qed.

(** A round of questions that returns has read one line for each request. *)
Lemma collect_replies_inv requests d (w : World Workflow) d' w' :
  collect_replies requests d w = Ok (d', w') ->
  exists lines,
    length lines = length requests
    /\ stdin w = lines ++ stdin w'
    /\ d' = answered requests lines d
    /\ actions w' = actions w ++ dialogue requests lines
    /\ workflow w' = workflow w.
Proof.
  intros Hrun.
  destruct (Nat.lt_ge_cases (length (stdin w)) (length requests)) as [Hlt|Hge].
  - rewrite (collect_replies_eof requests d w Hlt) in Hrun. discriminate.
  - assert (Hlen : length (take (length requests) (stdin w)) = length requests)
      by (rewrite length_take; lia).
    rewrite (collect_replies_run requests _ (drop (length requests) (stdin w)) d w
               (eq_sym (take_drop _ _)) Hlen) in Hrun.
    injection Hrun as <- <-. exists (take (length requests) (stdin w)).
    cbn [stdin actions workflow]. split; [exact Hlen|].
    split; [symmetry; apply take_drop|]. repeat split.
Qed.

Lemma show_final_eq final (w : World Workflow) :
  show_final final w
  = Ok (tt, {| workflow := workflow w; stdin := stdin w;
               actions := actions w ++ shown final |}).
Proof.
  destruct final as [out|]; unfold show_final, shown; [destruct (truthy out)|];
    unfold bind, console_print, act, ret; cbn [workflow stdin actions final_display];
    rewrite <- ?(assoc_L (++)), ?app_nil_r; try reflexivity; now destruct w.
Qed.

Lemma shown_no_engine_call final : forallb no_call_or_send (shown final) = true.
Proof. destruct final as [out|]; [cbn; destruct (truthy out)|]; reflexivity. Qed.

(** A phase that returns made one engine call and then none; if the loop is
    to go on, it kept a batch with an entry in it. *)
Lemma loop_body_inv v (w : World Workflow) v1 w1 :
  loop_body v w = Ok (v1, w1) ->
  exists log,
    actions w1 = actions w ++ stream_call (pending_responses v) :: log
    /\ forallb (fun a => negb (is_engine_call a)) log = true
    /\ (completed v1 = false ->
        exists entry more, pending_responses v1 = Some (entry :: more)).
Proof.
  rewrite loop_body_cases. cbv zeta.
  destruct (pending_requests _) as [|request requests] eqn:Hreq;
    [|destruct (drained_completed _) eqn:Hdone].
  - intros [= <- <-]. exists []. cbn [actions completed]. split; [reflexivity|].
    split; [reflexivity|]. now destruct (drained_completed _).
  - intros [= <- <-]. exists []. cbn [actions completed negb]. split; [reflexivity|].
    split; [reflexivity|discriminate].
  - destruct (collect_replies _ _ _) as [[responses w']|e] eqn:Hcollect; [|discriminate].
    intros [= <- <-].
    destruct (collect_replies_inv _ _ _ _ _ Hcollect)
      as (lines & Hlen & _ & Hresp & Hact & _).
    exists (dialogue (request :: requests) lines). cbn [actions] in Hact.
    split; [rewrite Hact; now rewrite <- (assoc_L (++))|].
    split; [apply dialogue_no_engine_call|]. intros _. cbn [pending_responses].
    pose proof (answered_nonempty request requests lines [] Hlen) as Hne.
    rewrite <- Hresp in Hne. destruct responses as [|entry more]; [contradiction|eauto].
Qed.

Lemma no_engine_call_weaken log :
  forallb (fun a => negb (is_engine_call a)) log = true ->
  forallb no_call_or_send log = true.
Proof.
  induction log as [|a log IH]; [reflexivity|]. cbn [forallb].
  intros [Ha Hlog]%andb_true_iff. unfold no_call_or_send at 1. rewrite Ha. now apply IH.
Qed.

(** The engine calls of a loop that returns: the one that opens its first
    phase, then only [send_responses_streaming] with an entry in the batch. *)
Lemma while_calls fuel : forall v (w : World Workflow) v' w',
  completed v = false ->
  while_not_completed fuel v w = Some (Ok (v', w')) ->
  exists log,
    actions w' = actions w ++ stream_call (pending_responses v) :: log
    /\ forallb no_call_or_send log = true.
Proof.
  induction fuel as [|fuel IH]; intros v w v' w' Hrunning Hrun;
    cbn [while_not_completed] in Hrun; rewrite Hrunning in Hrun; [discriminate|].
  destruct (loop_body v w) as [[v1 w1]|e] eqn:Hbody; [|discriminate].
  destruct (loop_body_inv v w v1 w1 Hbody) as (log1 & Hact1 & Hno1 & Hnext).
  destruct (completed v1) eqn:Hdone1.
  - destruct fuel; cbn [while_not_completed] in Hrun; rewrite Hdone1 in Hrun;
      injection Hrun as <- <-; exists log1; split; auto using no_engine_call_weaken.
  - destruct (Hnext eq_refl) as (entry & more & Hpending).
    destruct (IH v1 w1 v' w' Hdone1 Hrun) as (log2 & Hact2 & Hno2).
    exists (log1 ++ stream_call (pending_responses v1) :: log2). split.
    + rewrite Hact2, Hact1. rewrite <- (assoc_L (++)). reflexivity.
    + rewrite forallb_app. rewrite (no_engine_call_weaken log1 Hno1).
      cbn [forallb andb]. rewrite Hno2, Hpending. reflexivity.
Qed.

(** The body on a stream that carries an output. *)
Lemma loop_body_output v (w : World Workflow) events wf output :
  stream_result (pending_responses v) (workflow w) = (events, wf) ->
  last_output events = Some output ->
  loop_body v w
  = Ok ({| pending_responses := None; completed := true; final_output := Some output |},
        {| workflow := wf; stdin := stdin w;
           actions := actions w ++ [stream_call (pending_responses v)] |}).
Proof.
  intros Hstream Hlast. rewrite loop_body_cases. cbv zeta. rewrite Hstream. cbn [fst snd].
  destruct (drain_spec (completed v) (final_output v) events) as (_ & Hdone & ->).
  assert (Hout : existsb is_output_event events = true).
  { destruct (existsb is_output_event events) eqn:E; [reflexivity|].
    exfalso. clear - E Hlast. revert output Hlast.
    induction events as [|event events IH]; intros output Hlast; [discriminate|].
    rewrite last_output_cons in Hlast. cbn [existsb] in E.
    apply orb_false_iff in E as [Hevent E].
    destruct event as [request_id payload|out|state|]; try discriminate; eauto. }
  rewrite Hdone, Hout, orb_true_r, Hlast. now destruct (pending_requests _).
Qed.

(** X12: a stream that carries a [WorkflowOutputEvent] ends the loop in that
    phase: the body records the payload of the last such event, asks no
    question and reads no line, whatever review requests the same stream
    raised, and the loop stops. *)
Theorem output_ends_loop_without_questions v (w : World Workflow) events wf
    (Hrunning : completed v = false)
    (Hstream : stream_result (pending_responses v) (workflow w) = (events, wf))
    (Hout : existsb is_output_event events = true) :
  exists output v' w',
    last_output events = Some output
    /\ v' = {| pending_responses := None; completed := true; final_output := Some output |}
    /\ w' = {| workflow := wf; stdin := stdin w;
               actions := actions w ++ [stream_call (pending_responses v)] |}
    /\ loop_body v w = Ok (v', w')
    /\ (forall fuel, while_not_completed (S fuel) v w = Some (Ok (v', w'))).
Proof.
  destruct (last_output_some events Hout) as (output & Hlast).
  exists output. eexists. eexists. split; [exact Hlast|]. split; [reflexivity|].
  split; [reflexivity|].
  pose proof (loop_body_output v w events wf output Hstream Hlast) as Hbody.
  split; [exact Hbody|]. intros fuel. cbn [while_not_completed].
  rewrite Hrunning, Hbody. destruct fuel; reflexivity.
Qed.

(** X13: when a stream raises review requests, carries no output, and the
    standard input holds fewer lines than there are requests, [input] meets
    the end of the input: the body raises [EOFError] and so does the loop,
    which has no handler for it. *)
Theorem short_input_raises_eof v (w : World Workflow) events wf
    (Hrunning : completed v = false)
    (Hstream : stream_result (pending_responses v) (workflow w) = (events, wf))
    (Hnoout : existsb is_output_event events = false)
    (Hshort : (length (stdin w) < length (review_requests events))%nat) :
  loop_body v w = Raise EOFError
  /\ (forall fuel, while_not_completed (S fuel) v w = Some (Raise EOFError)).
Proof.
  assert (Hbody : loop_body v w = Raise EOFError).
  { rewrite loop_body_cases. cbv zeta. rewrite Hstream. cbn [fst snd].
    destruct (drain_spec (completed v) (final_output v) events) as (-> & -> & _).
    rewrite Hrunning, Hnoout. cbn [orb].
    destruct (review_requests events) as [|request requests] eqn:Hreq;
      [cbn in Hshort; lia|].
    rewrite collect_replies_eof; [reflexivity|]. cbn [stdin]. exact Hshort. }
  split; [exact Hbody|]. intros fuel. cbn [while_not_completed].
  now rewrite Hrunning, Hbody.
Qed.

(** X14: in every run of [main] that returns, [run_stream] is called once,
    with the initial task, right after the task is printed, and every later
    engine call is [send_responses_streaming] with at least one reply in the
    batch. *)
Theorem main_calls_run_stream_once fuel (w : World Workflow) final w'
    (Hrun : main fuel w = Some (Ok (final, w'))) :
  exists log,
    actions w'
    = actions w ++ ConsolePrint (nl +:+ "初期タスク: " +:+ initial_task) nl
                   :: RunStream initial_task :: log
    /\ forallb no_call_or_send log = true.
Proof.
  unfold main, console_print in Hrun.
  destruct (while_not_completed fuel initial_locals _) as [[[v w1]|e]|] eqn:Hloop;
    try discriminate.
  rewrite show_final_eq in Hrun. injection Hrun as <- <-.
  destruct (while_calls fuel initial_locals _ _ _ eq_refl Hloop) as (log & Hact & Hno).
  exists (log ++ shown (final_output v)). cbn [actions]. rewrite Hact. split.
  - unfold act. cbn [actions stream_call initial_locals pending_responses].
    rewrite <- !(assoc_L (++)). reflexivity.
  - rewrite forallb_app, Hno. apply shown_no_engine_call.
Qed.

(** X16: when the first stream carries a [WorkflowOutputEvent], [main] ends
    after that one phase without reading a line and returns the payload of
    the last such event.  It displays the payload in seven lines when it is
    truthy; an empty string is returned but nothing is displayed for it. *)
Theorem main_ends_on_first_output fuel (w : World Workflow) events wf
    (Hstream : run_stream (workflow w) initial_task = (events, wf))
    (Hout : existsb is_output_event events = true) :
  exists output,
    last_output events = Some output
    /\ main (S fuel) w
       = Some (Ok (Some output,
                   {| workflow := wf; stdin := stdin w;
                      actions :=
                        actions w ++
                        [ ConsolePrint (nl +:+ "初期タスク: " +:+ initial_task) nl;
                          RunStream initial_task ] ++
                        (if truthy output then final_display output else []) |}))
    /\ (output = VStr "" ->
        main (S fuel) w
        = Some (Ok (Some output,
                    {| workflow := wf; stdin := stdin w;
                       actions :=
                         actions w ++
                         [ ConsolePrint (nl +:+ "初期タスク: " +:+ initial_task) nl;
                           RunStream initial_task ] |}))).
Proof.
  destruct (last_output_some events Hout) as (output & Hlast).
  exists output. split; [exact Hlast|].
  assert (Hmain : main (S fuel) w
                  = Some (Ok (Some output,
                      {| workflow := wf; stdin := stdin w;
                         actions :=
                           actions w ++
                           [ ConsolePrint (nl +:+ "初期タスク: " +:+ initial_task) nl;
                             RunStream initial_task ] ++
                           (if truthy output then final_display output else []) |}))).
  { unfold main, console_print. cbn [while_not_completed initial_locals completed].
    rewrite (loop_body_output _ _ events wf output) by (cbn; assumption).
    destruct fuel; cbn [while_not_completed completed final_output];
      rewrite show_final_eq; cbn [workflow stdin actions act shown pending_responses stream_call];
      rewrite <- !(assoc_L (++)); reflexivity. }
  split; [exact Hmain|]. intros ->. rewrite Hmain. cbn [truthy String.eqb negb].
  now rewrite app_nil_r.
Qed.

(** When the loop goes on after a phase: exactly when the stream raised a
    review request and carried no output. *)
Lemma loop_body_goes_on v (w : World Workflow) events wf v' w' :
  completed v = false ->
  stream_result (pending_responses v) (workflow w) = (events, wf) ->
  loop_body v w = Ok (v', w') ->
  (completed v' = false
   <-> pending_requests (drain (completed v) (final_output v) events) <> []
       /\ existsb is_output_event events = false).
Proof.
  intros Hrunning Hstream. rewrite loop_body_cases. cbv zeta. rewrite Hstream. cbn [fst snd].
  rewrite Hrunning.
  destruct (drain_spec false (final_output v) events) as (_ & Hdone & _).
  cbn [orb] in Hdone. rewrite Hdone.
  destruct (pending_requests _) as [|request requests];
    [|destruct (existsb is_output_event events)].
  - intros [= <- <-]. cbn [completed]. split; [|now intros [? _]].
    now destruct (existsb is_output_event events).
  - intros [= <- <-]. cbn [completed negb]. split; [discriminate|now intros [_ ?]].
  - destruct (collect_replies _ _ _) as [[responses w'']|e]; [|discriminate].
    intros [= <- <-]. cbn [completed]. split; [|reflexivity]. intros _. now split.
Qed.

(** C7: a phase of the loop calls the engine once, at its start, and only
    prints and reads after that.  The loop goes on exactly when the stream
    raised review requests and carried no output; it has then read one line
    for each request the stream raised, in their order, the batch it keeps
    has an entry for every one of their ids (the stripped line read last for
    that id) and nothing else, and the engine call that opens the next phase
    is [send_responses_streaming] with that whole batch. *)
Theorem replies_batched_before_next_phase v (w : World Workflow) events wf
    (Hrunning : completed v = false)
    (Hstream : stream_result (pending_responses v) (workflow w) = (events, wf))
    (Hlines : (length (pending_requests (drain (completed v) (final_output v) events))
               <= length (stdin w))%nat) :
  let requests := pending_requests (drain (completed v) (final_output v) events) in
  exists v' w' log,
    loop_body v w = Ok (v', w')
    /\ actions w' = actions w ++ stream_call (pending_responses v) :: log
    /\ forallb (fun a => negb (is_engine_call a)) log = true
    /\ (completed v' = false
        <-> requests <> [] /\ existsb is_output_event events = false)
    /\ (completed v' = false ->
          exists lines batch,
            stdin w = lines ++ stdin w'
            /\ length lines = length requests
            /\ List.filter is_read log = map ReadLine lines
            /\ batch = answered requests lines []
            /\ pending_responses v' = Some batch
            /\ (forall request_id,
                  request_id ∈ keys batch <-> request_id ∈ map fst requests)
            /\ NoDup (keys batch)
            /\ stream_call (pending_responses v') = SendResponsesStreaming batch)
    /\ (completed v' = true ->
          log = [] /\ stdin w' = stdin w /\ pending_responses v' = None).
Proof.
  intros requests.
  destruct (loop_phase_log run_stream send_responses_streaming v w events wf
              Hrunning Hstream Hlines)
    as (v' & w' & log & Hbody & Hact & Hno & Hgo & Hstop).
  exists v', w', log. split; [exact Hbody|]. split; [exact Hact|]. split; [exact Hno|].
  split; [exact (loop_body_goes_on v w events wf v' w' Hrunning Hstream Hbody)|].
  split; [exact Hgo|exact Hstop].
Qed.

End DriverRuns.

(** C7 on the engine that raises two requests: both lines are read before
    the loop goes on, and the next call carries both replies. *)
Lemma replies_batched_before_next_phase_witness :
  (exists w',
     loop_body nat two_requests_run_stream two_requests_send_responses_streaming
       initial_locals (console 0%nat [" add a pun "; "APPROVE"; "later"])
     = Ok ({| pending_responses := Some [("r1", "add a pun"); ("r2", "APPROVE")];
              completed := false;
              final_output := None |}, w')
     /\ stdin w' = ["later"])
  /\ exists v' w' log,
       loop_body nat two_requests_run_stream two_requests_send_responses_streaming
         initial_locals (console 0%nat [" add a pun "; "APPROVE"; "later"])
       = Ok (v', w')
       /\ actions w' = RunStream initial_task :: log
       /\ forallb (fun a => negb (is_engine_call a)) log = true.
Proof.
  split; [eexists; split; [lazy; reflexivity|reflexivity]|].
  destruct (replies_batched_before_next_phase
              two_requests_run_stream two_requests_send_responses_streaming
              initial_locals (console 0%nat [" add a pun "; "APPROVE"; "later"])
              [ WorkflowStatusEvent IN_PROGRESS;
                RequestInfoEvent "r1" (HumanReview sample_request);
                RequestInfoEvent "r2" (HumanReview sample_request);
                WorkflowStatusEvent IDLE_WITH_PENDING_REQUESTS ] 1%nat
              eq_refl eq_refl ltac:(cbn; lia))
    as (v' & w' & log & Hbody & Hact & Hno & _).
  exists v', w', log. auto.
Defined.

(** X12 on the engine that yields twice after a request: the loop ends with
    the second payload and the line on the input is not read. *)
Lemma output_ends_loop_without_questions_witness :
  exists v' w',
    loop_body unit early_output_run_stream idle_send_responses_streaming
      initial_locals (console tt ["approve"]) = Ok (v', w')
    /\ final_output v' = Some (VStr "Drive Bold.")
    /\ completed v' = true
    /\ stdin w' = ["approve"].
Proof.
  destruct (output_ends_loop_without_questions
              early_output_run_stream idle_send_responses_streaming
              initial_locals (console tt ["approve"])
              [ RequestInfoEvent "r1" (HumanReview sample_request);
                WorkflowOutputEvent (VStr "Drive.");
                WorkflowOutputEvent (VStr "Drive Bold.") ] tt eq_refl eq_refl eq_refl)
    as (output & v' & w' & Hlast & Hv & Hw & Hbody & _).
  exists v', w'. split; [exact Hbody|]. rewrite Hv, Hw.
  injection Hlast as <-. repeat split.
Defined.

(** X13 on the engine that raises two requests, with one line to read. *)
Lemma short_input_raises_eof_witness :
  loop_body nat two_requests_run_stream two_requests_send_responses_streaming
    initial_locals (console 0%nat ["only one"]) = Raise EOFError
  /\ main nat two_requests_run_stream two_requests_send_responses_streaming 3
       (console 0%nat ["only one"]) = Some (Raise EOFError).
Proof.
  split; [|reflexivity].
  exact (proj1 (short_input_raises_eof
                  two_requests_run_stream two_requests_send_responses_streaming
                  initial_locals (console 0%nat ["only one"])
                  [ WorkflowStatusEvent IN_PROGRESS;
                    RequestInfoEvent "r1" (HumanReview sample_request);
                    RequestInfoEvent "r2" (HumanReview sample_request);
                    WorkflowStatusEvent IDLE_WITH_PENDING_REQUESTS ] 1%nat
                  eq_refl eq_refl eq_refl ltac:(cbn; lia))).
Defined.

(** X14 on the engine that raises two requests. *)
Lemma main_calls_run_stream_once_witness :
  exists final w' log,
    main nat two_requests_run_stream two_requests_send_responses_streaming 2
      (console 0%nat [" add a pun "; "APPROVE"; "later"]) = Some (Ok (final, w'))
    /\ actions w'
       = ConsolePrint (nl +:+ "初期タスク: " +:+ initial_task) nl
         :: RunStream initial_task :: log
    /\ forallb no_call_or_send log = true.
Proof.
  destruct (main nat two_requests_run_stream two_requests_send_responses_streaming 2
              (console 0%nat [" add a pun "; "APPROVE"; "later"]))
    as [[[final w']|e]|] eqn:Hrun.
  - destruct (main_calls_run_stream_once
                two_requests_run_stream two_requests_send_responses_streaming
                2 (console 0%nat [" add a pun "; "APPROVE"; "later"]) final w' Hrun)
      as (log & Hact & Hno).
    exists final, w', log. split; [reflexivity|]. split; [exact Hact|exact Hno].
  - vm_compute in Hrun. discriminate.
  - vm_compute in Hrun. discriminate.
Defined.

(** X15 on two requests and three lines. *)
Lemma replies_paired_in_order_witness :
  exists w',
    collect_replies unit [("r1", sample_request); ("r2", sample_request)] []
      (console tt [" add a pun "; "APPROVE"; "later"])
    = Ok ([("r1", "add a pun"); ("r2", "APPROVE")], w')
    /\ stdin w' = ["later"].
Proof.
  destruct (replies_paired_in_order
              [("r1", sample_request); ("r2", sample_request)]
              [" add a pun "; "APPROVE"] ["later"]
              (console tt [" add a pun "; "APPROVE"; "later"]) eq_refl eq_refl)
    as (w' & Hrun & Hin & _).
  - apply NoDup_cons. split; [|apply NoDup_singleton].
    intros Hin. apply list_elem_of_singleton in Hin. discriminate.
  - exists w'. split; [exact Hrun|exact Hin].
Defined.

(** X16 on the engine that yields the empty string: it is returned and
    nothing is displayed. *)
Lemma main_ends_on_first_output_witness :
  main unit empty_output_run_stream idle_send_responses_streaming 1
    (console tt ["approve"])
  = Some (Ok (Some (VStr ""),
              {| workflow := tt; stdin := ["approve"];
                 actions := [ ConsolePrint (nl +:+ "初期タスク: " +:+ initial_task) nl;
                              RunStream initial_task ] |})).
Proof.
  destruct (main_ends_on_first_output
              empty_output_run_stream idle_send_responses_streaming 0
              (console tt ["approve"])
              [ WorkflowOutputEvent (VStr ""); WorkflowStatusEvent IDLE ] tt
              eq_refl eq_refl)
    as (output & Hlast & _ & Hempty).
  injection Hlast as <-. exact (Hempty eq_refl).
Defined.
